(** * WhatsApp failure analytics: the analysis pipeline of [app.py]

    The dashboard of [app.py] reads a delivery report with pandas and
    derives from it the campaign counts, the failed messages with their
    reasons, the contacts of one failure reason and the validity of the
    phone numbers.  This file embeds that pipeline and proves what it
    computes.

    Modelling choices, all following the source:
    - a table is a [DataFrame]: its column labels and its rows in order,
      every row carrying its index label and a finite map from column
      label to value.  A cell the map does not hold reads as [NaN], the
      way [read_csv] fills an empty field;
    - values are a string, the missing value [NaN], or a boolean.  A
      column that holds a string, or no row at all, is an object column;
      a column with rows and no string is one [read_csv] typed as numbers
      or booleans (every field empty: float64), and the [.str] accessor
      refuses it;
    - a [Series] taken from a frame is the list of that column's values in
      row order; every series of the program is derived from the frame it
      is used with, so positions and index labels agree;
    - text is over the ASCII range, where Python's [str.upper] maps [a-z]
      to [A-Z] and the regular expression class [\d] is [0-9];
    - Streamlit calls that carry analysis data (warnings, metrics, tables,
      downloads) are events of a writer; a Python exception ends the run.
      Headers, charts and the message template are presentation only and
      are left out.  The percentage shown next to a metric is kept as an
      exact rational, the value before it is formatted to one decimal;
    - the [datetime] column that [load_data] adds to a report with a date
      and a time column is read by no line of the script and is left out
      of the loaded table. *)

From Stdlib Require Import Ascii String ZArith QArith Lia.
From stdpp Require Import base option list gmap strings sorting.

Local Open Scope Z_scope.

(** ** Text *)

(** [\d] on ASCII text. *)
Definition is_digit (c : ascii) : bool :=
  let n := nat_of_ascii c in (48 <=? n)%nat && (n <=? 57)%nat.

Definition upper_char (c : ascii) : ascii :=
  let n := nat_of_ascii c in
  if (97 <=? n)%nat && (n <=? 122)%nat then ascii_of_nat (n - 32) else c.

(** [str.upper()] *)
Fixpoint upper (s : string) : string :=
  match s with
  | EmptyString => EmptyString
  | String c s' => String (upper_char c) (upper s')
  end.

(** [re.sub(r'\D', '', s)]: every character that is not a digit is
    deleted. *)
Fixpoint remove_nondigits (s : string) : string :=
  match s with
  | EmptyString => EmptyString
  | String c s' =>
      if is_digit c then String c (remove_nondigits s') else remove_nondigits s'
  end.

(** The greedy [\d+] continued from the current position. *)
Fixpoint digit_prefix (s : string) : string :=
  match s with
  | EmptyString => EmptyString
  | String c s' => if is_digit c then String c (digit_prefix s') else EmptyString
  end.

(** [re.search(r'(\d+)', s)], group 1: the leftmost match, taken greedily,
    which is the first maximal run of digits; [None] when nothing
    matches. *)
Fixpoint search_digits (s : string) : option string :=
  match s with
  | EmptyString => None
  | String c s' =>
      if is_digit c then Some (String c (digit_prefix s')) else search_digits s'
  end.

(** [s.replace(' ', '_')] *)
Fixpoint replace_spaces (s : string) : string :=
  match s with
  | EmptyString => EmptyString
  | String c s' =>
      String (if Ascii.eqb c " "%char then "_"%char else c) (replace_spaces s')
  end.

Fixpoint all_digits (s : string) : bool :=
  match s with
  | EmptyString => true
  | String c s' => is_digit c && all_digits s'
  end.

Fixpoint no_digits (s : string) : bool :=
  match s with
  | EmptyString => true
  | String c s' => negb (is_digit c) && no_digits s'
  end.

(** ** Values, series and frames *)

Inductive cell : Type :=
  | NaN
  | Str (s : string)
  | Bool (b : bool).

#[global] Instance cell_eq_dec : EqDecision cell.
Proof. solve_decision. Defined.

Abbreviation Series := (list cell).

Record Row : Type := mkRow {
  label : nat;
  cells : gmap string cell
}.

#[global] Instance Row_eq_dec : EqDecision Row.
Proof. solve_decision. Defined.

Record DataFrame : Type := mkDF {
  columns : list string;
  rows : list Row
}.

(** The value of row [r] in column [c]. *)
Definition at_col (c : string) (r : Row) : cell := default NaN (cells r !! c).

Definition set_col (c : string) (v : cell) (r : Row) : Row :=
  mkRow (label r) (<[c := v]> (cells r)).

(** [c in df.columns] *)
Definition has_column (df : DataFrame) (c : string) : bool :=
  bool_decide (c ∈ columns df).

(** [len(df)] *)
Definition len (df : DataFrame) : Z := Z.of_nat (length (rows df)).

(** [df.empty]: no rows or no columns. *)
Definition empty (df : DataFrame) : bool :=
  bool_decide (rows df = []) || bool_decide (columns df = []).

(** [pd.DataFrame()] *)
Definition DataFrame_new : DataFrame := mkDF [] [].

(** ** Exceptions and the event writer *)

(** The exceptions the script can end with.  [KeyError key] is that of a
    column lookup [df[key]]; a selection [df[[...]]] raises
    [KeyError("[...] not in index")] with the labels it misses, or
    [KeyError("None of [...] are in the [columns]")] when it misses them
    all.  [NameError name] is the read of an unbound variable. *)
Inductive exn : Type :=
  | KeyError (key : string)
  | KeyError_not_in_index (missing : list string)
  | KeyError_none_in_columns (keys : list string)
  | ZeroDivisionError
  | TypeError
  | AttributeError
  | NameError (name : string).

Inductive outcome (A : Type) : Type :=
  | Ok (a : A)
  | Raise (e : exn).
Arguments Ok {A} a.
Arguments Raise {A} e.

(** What the dashboard shows, in the order of the calls.  The [delta] of
    a metric is the percentage as computed, before the f-string formats
    it to one decimal.  Headers and charts are left out. *)
Inductive ui : Type :=
  | error (msg : string)
  | warning (msg : string)
  | success_msg (msg : string)
  | metric (label : string) (value : Z) (delta : option Q)
  | dataframe (data : DataFrame)
  | download_button (file_name : string) (data : DataFrame).

(** A run of dashboard code: the events shown so far and how it ended. *)
Definition io (A : Type) : Type := (list ui * outcome A)%type.

Definition ret {A} (a : A) : io A := ([], Ok a).

Definition bind {A B} (m : io A) (k : A → io B) : io B :=
  match m with
  | (w, Ok a) => let '(w', r) := k a in (w ++ w', r)
  | (w, Raise e) => (w, Raise e)
  end.

Definition emit (u : ui) : io unit := ([u], Ok tt).

Definition lift {A} (o : outcome A) : io A := ([], o).

Definition raise {A} (e : exn) : io A := ([], Raise e).

Notation "x <- m ;; k" := (bind m (fun x => k))
  (at level 63, m at next level, right associativity).
Notation "m ;;; k" := (bind m (fun _ => k))
  (at level 63, right associativity).

(** The same sequencing without events. *)
Definition obind {A B} (o : outcome A) (k : A → outcome B) : outcome B :=
  match o with
  | Ok a => k a
  | Raise e => Raise e
  end.

(** ** pandas operations used by the program *)

(** [df[c]] when [c] is known to be a column. *)
Definition column (df : DataFrame) (c : string) : Series :=
  at_col c <$> rows df.

(** [df[c]] *)
Definition getitem (df : DataFrame) (c : string) : outcome Series :=
  if has_column df c then Ok (column df c) else Raise (KeyError c).

(** The right-hand side of [df[c] = ...]: a series of the frame, or a
    scalar that is broadcast. *)
Inductive colvalue : Type :=
  | Col (s : Series)
  | Scalar (v : cell).

Fixpoint assign (c : string) (rs : list Row) (s : Series) : list Row :=
  match rs, s with
  | r :: rs', v :: s' => set_col c v r :: assign c rs' s'
  | _, _ => []
  end.

(** [df[c] = v] *)
Definition setitem (df : DataFrame) (c : string) (v : colvalue) : DataFrame :=
  mkDF (if has_column df c then columns df else columns df ++ [c])
       (match v with
        | Col s => assign c (rows df) s
        | Scalar x => set_col c x <$> rows df
        end).

(** [l[mask]] on the rows of a frame or the values of a series. *)
Fixpoint keep {A} (l : list A) (mask : list bool) : list A :=
  match l, mask with
  | x :: l', b :: mask' => if b then x :: keep l' mask' else keep l' mask'
  | _, _ => []
  end.

(** [df[mask]] *)
Definition boolean_index (df : DataFrame) (mask : list bool) : DataFrame :=
  mkDF (columns df) (keep (rows df) mask).

(** [df.get(c, default)] *)
Definition df_get (df : DataFrame) (c : string) (default : string) : colvalue :=
  if has_column df c then Col (column df c) else Scalar (Str default).

(** Whether a value is a text. *)
Definition is_text (v : cell) : bool :=
  match v with
  | Str _ => true
  | _ => false
  end.

(** A column of object dtype: it holds a string, or it has no row. *)
Definition object_column (s : Series) : bool :=
  bool_decide (s = []) || existsb is_text s.

(** [s.str]: the accessor takes an object column; for a column of
    numbers or booleans, and so for a column every field of which was
    empty, it raises [AttributeError]. *)
Definition str_accessor (s : Series) : outcome Series :=
  if object_column s then Ok s else Raise AttributeError.

(** [upper()] over the values of an object column: a value that is not a
    string gives [NaN]. *)
Definition upper_values (s : Series) : Series :=
  (λ v, match v with Str x => Str (upper x) | _ => NaN end) <$> s.

(** [s.str.upper()] *)
Definition str_upper (s : Series) : outcome Series :=
  obind (str_accessor s) (λ s, Ok (upper_values s)).

(** [s.isin(values)] *)
Definition isin (s : Series) (values : list string) : list bool :=
  (λ v, bool_decide (v ∈ Str <$> values)) <$> s.

(** [~mask] *)
Definition invert (mask : list bool) : list bool := negb <$> mask.

(** [s.astype(str)]: the missing value becomes the text [nan] (pandas 1
    and 2; were it kept missing, the digit search below would find as
    little in it). *)
Definition cell_str (v : cell) : string :=
  match v with
  | NaN => "nan"
  | Str x => x
  | Bool true => "True"
  | Bool false => "False"
  end.

Definition astype_str (s : Series) : list string := cell_str <$> s.

(** [s.str.extract(r'(\d+)')[0]] *)
Definition extract_digits (x : string) : cell :=
  match search_digits x with
  | Some d => Str d
  | None => NaN
  end.

Definition str_extract_digits (s : list string) : Series := extract_digits <$> s.

(** [s.str.replace(r'\D', '', regex=True)] *)
Definition str_replace_nondigits (s : list string) : list string :=
  remove_nondigits <$> s.

(** [s == v], element by element; [NaN] equals nothing, and against
    [None] every comparison is false. *)
Definition eq_scalar (s : Series) (v : option string) : list bool :=
  (λ x, match v with Some t => bool_decide (x = Str t) | None => false end) <$> s.

(** [s.apply(f)] for an [f] that may raise. *)
Fixpoint series_apply {B} (f : cell → outcome B) (s : Series) : outcome (list B) :=
  match s with
  | [] => Ok []
  | v :: s' =>
      obind (f v) (λ b, obind (series_apply f s') (λ bs, Ok (b :: bs)))
  end.

(** [s.sum()] of a boolean column: the number of [True]. *)
Fixpoint sum_bool (s : Series) : Z :=
  match s with
  | [] => 0
  | Bool true :: s' => 1 + sum_bool s'
  | _ :: s' => sum_bool s'
  end.

(** A boolean column used as a mask. *)
Definition as_mask (s : Series) : list bool :=
  (λ v, bool_decide (v = Bool true)) <$> s.

(** [s.duplicated()] with [keep='first']: a value is a duplicate when an
    equal one came earlier; [NaN] counts as equal to [NaN]. *)
Fixpoint duplicated_from {A} `{EqDecision A} (seen l : list A) : list bool :=
  match l with
  | [] => []
  | x :: l' => bool_decide (x ∈ seen) :: duplicated_from (x :: seen) l'
  end.

Definition duplicated {A} `{EqDecision A} (l : list A) : list bool :=
  duplicated_from [] l.

(** The values of a row over the frame's columns: what [duplicated]
    compares. *)
Definition row_values (df : DataFrame) (r : Row) : list cell :=
  (λ c, at_col c r) <$> columns df.

(** [df.drop_duplicates()] *)
Definition drop_duplicates (df : DataFrame) : DataFrame :=
  boolean_index df (invert (duplicated (row_values df <$> rows df))).

(** The row of [r] over the labels [cs]. *)
Definition project (cs : list string) (r : Row) : Row :=
  mkRow (label r) (list_to_map ((λ c, (c, at_col c r)) <$> cs)).

(** The labels of [cs] that are no column of [df]. *)
Definition missing_columns (df : DataFrame) (cs : list string) : list string :=
  List.filter (λ c, negb (has_column df c)) cs.

(** [df[[c1, ..., cn]]]: with every label missing pandas raises
    [KeyError("None of [...] are in the [columns]")], with some missing
    [KeyError("[...] not in index")] naming each missing label once. *)
Definition select_columns (df : DataFrame) (cs : list string) : outcome DataFrame :=
  match missing_columns df cs with
  | [] => Ok (mkDF cs (project cs <$> rows df))
  | missing =>
      if (length missing =? length cs)%nat
      then Raise (KeyError_none_in_columns cs)
      else Raise (KeyError_not_in_index
                    (keep missing (invert (duplicated missing))))
  end.

(** ** The program *)

(** [load_data], lines 28-29 and 38, on the table [read_csv] produced,
    its column labels already standardised (line 25): what the function
    does to the columns the analysis reads.  Lines 32-36 add a [datetime]
    column to a table that has both [sent_date] and [sent_time]; no line
    of the script reads that column, and it is left out here, so on such
    a table the result stands for the loaded table without its
    [datetime] column.  The failure of [read_csv], lines 39-41, is in
    [run_script]. *)
Definition load_data (file : DataFrame) : DataFrame :=
  let df := file in
  if has_column df "phone_number" then
    setitem df "phone_number"
      (Col (str_extract_digits (astype_str (column df "phone_number"))))
  else df.

Definition success_statuses : list string := ["SUCCESS"; "DELIVERED"; "READ"].

(** Line 51, the mask under [df[...]]. *)
Definition failure_mask (df : DataFrame) : outcome (list bool) :=
  obind (str_upper (column df "delivery_status")) (λ status,
  Ok (invert (isin status success_statuses))).

(** [analyze_failures], lines 43-63. *)
Definition analyze_failures (df : DataFrame) : io DataFrame :=
  if negb (has_column df "delivery_status") then
    emit (warning "Delivery Status column not found") ;;;
    ret DataFrame_new
  else
    mask <- lift (failure_mask df) ;;
    let failed := boolean_index df mask in
    if negb (empty failed) then
      failed <- (if has_column df "phone_number" then
                   ret (setitem failed "phone_number"
                          (Col (str_extract_digits
                                  (astype_str (column failed "phone_number")))))
                 else
                   emit (warning "Phone Number column not found in the data") ;;;
                   ret failed) ;;
      ret (setitem failed "failure_reason"
             (df_get failed "delivery_description" "No reason provided"))
    else ret failed.

(** [a/b*100] on Python integers: a zero divisor raises.  (With a numpy
    integer as [a] the quotient would be [nan]: no percentage either
    way.) *)
Definition percent (a b : Z) : outcome Q :=
  if b =? 0 then Raise ZeroDivisionError
  else Ok (inject_Z a / inject_Z b * 100)%Q.

(** Lines 73-75: [(total_messages, success, failed)]. *)
Definition overview_counts (df : DataFrame) : outcome (Z * Z * Z) :=
  let total_messages := len df in
  obind (getitem df "delivery_status") (λ status,
  obind (str_upper status) (λ status,
  let success := len (boolean_index df (isin status success_statuses)) in
  let failed := total_messages - success in
  Ok (total_messages, success, failed))).

(** Lines 70-89, the campaign overview. *)
Definition campaign_overview (df : DataFrame) : io unit :=
  counts <- lift (overview_counts df) ;;
  let '(total_messages, success, failed) := counts in
  emit (metric "Total Messages" total_messages None) ;;;
  p <- lift (percent success total_messages) ;;
  emit (metric "Successful" success (Some p)) ;;;
  p <- lift (percent failed total_messages) ;;
  emit (metric "Failed" failed (Some p)).

(** Line 147. *)
Definition filtered_contacts (failed_messages : DataFrame)
    (selected_reason : option string) : outcome DataFrame :=
  obind (getitem failed_messages "failure_reason") (λ reason,
  Ok (boolean_index failed_messages (eq_scalar reason selected_reason))).

(** Line 162, before the encoding as CSV. *)
Definition contact_csv (filtered_contacts : DataFrame) : outcome DataFrame :=
  obind (select_columns filtered_contacts ["phone_number"]) (λ phones,
  Ok (drop_duplicates phones)).

Definition detail_columns : list string :=
  ["phone_number"; "delivery_status"; "failure_reason"].

(** Lines 91-170, the failure analysis.  The reason chosen in the select
    box is an input; [None] is what the box returns without options. *)
Definition failure_analysis (df : DataFrame) (selected_reason : option string)
    : io unit :=
  failed_messages <- analyze_failures df ;;
  if negb (empty failed_messages) then
    _ <- lift (getitem failed_messages "failure_reason") ;;
    details <- lift (select_columns failed_messages detail_columns) ;;
    emit (dataframe details) ;;;
    emit (download_button "failed_messages.csv" failed_messages) ;;;
    filtered <- lift (filtered_contacts failed_messages selected_reason) ;;
    if negb (empty filtered) then
      shown <- lift (select_columns filtered detail_columns) ;;
      emit (dataframe shown) ;;;
      contacts <- lift (contact_csv filtered) ;;
      match selected_reason with
      | Some reason =>
          emit (download_button (replace_spaces reason +:+ "_contacts.csv") contacts)
      | None => raise AttributeError
      end
    else ret tt
  else emit (success_msg "No failed messages found in this report").

(** Line 176, the function under [apply]; [len] of a value that is not a
    string raises. *)
Definition is_valid (x : cell) : outcome bool :=
  match x with
  | Str s => Ok (10 <=? String.length s)%nat
  | _ => Raise TypeError
  end.

(** Lines 175-176: the table with [phone_clean] and [is_valid].  The
    script gets here only past the column test of line 173. *)
Definition validate_phones (df : DataFrame) : outcome DataFrame :=
  let df := setitem df "phone_clean"
              (Col (Str <$> str_replace_nondigits
                              (astype_str (column df "phone_number")))) in
  obind (series_apply is_valid (column df "phone_clean")) (λ valid,
  Ok (setitem df "is_valid" (Col (Bool <$> valid)))).

(** Lines 178-179: [(valid_count, invalid_count)] of the validated table. *)
Definition phone_counts (df : DataFrame) : Z * Z :=
  let valid_count := sum_bool (column df "is_valid") in
  let invalid_count := len df - valid_count in
  (valid_count, invalid_count).

(** Lines 172-224, the phone number validation.  [invalid_numbers] is
    bound only when some number is invalid, and line 216 reads it in
    either case. *)
Definition phone_validation (df : DataFrame) : io unit :=
  if has_column df "phone_number" then
    df <- lift (validate_phones df) ;;
    let '(valid_count, invalid_count) := phone_counts df in
    p <- lift (percent valid_count (len df)) ;;
    emit (metric "Valid Numbers" valid_count (Some p)) ;;;
    p <- lift (percent invalid_count (len df)) ;;
    emit (metric "Invalid Numbers" invalid_count (Some p)) ;;;
    if 0 <? invalid_count then
      invalid_numbers <-
        lift (select_columns
                (boolean_index df (invert (as_mask (column df "is_valid"))))
                ["phone_number"; "phone_clean"]) ;;
      emit (dataframe invalid_numbers) ;;;
      emit (download_button "invalid_numbers.csv" invalid_numbers)
    else raise (NameError "invalid_numbers")
  else emit (warning "Phone Number column not found in the data").

(** Lines 66-224: the run of the script on an uploaded report that
    [read_csv] could parse. *)
Definition main_flow (uploaded_file : DataFrame) (selected_reason : option string)
    : io unit :=
  let df := load_data uploaded_file in
  campaign_overview df ;;;
  failure_analysis df selected_reason ;;;
  phone_validation df.

(** ** Reading results *)

(** The frame a run returned. *)
Definition run_frame (m : io DataFrame) : DataFrame :=
  match m with
  | (_, Ok df) => df
  | (_, Raise _) => DataFrame_new
  end.

(** [o] when it is a frame. *)
Definition frame_of (o : outcome DataFrame) : DataFrame :=
  match o with
  | Ok df => df
  | Raise _ => DataFrame_new
  end.

(** The metric cards a run showed. *)
Definition metrics_of {A} (m : io A) : list (string * Z) :=
  omap (λ u, match u with metric l v _ => Some (l, v) | _ => None end) m.1.

(** ** The pipeline read row by row *)

(** What lines 29 and 56 do to one row. *)
Definition normalize_phone (r : Row) : Row :=
  set_col "phone_number"
    (extract_digits (cell_str (at_col "phone_number" r))) r.

(** A status counts as delivered when its upper-cased text is in the
    list of line 50. *)
Definition success_status (v : cell) : Prop :=
  ∃ s, v = Str s ∧ upper s ∈ success_statuses.

#[global] Instance success_status_dec v : Decision (success_status v).
Proof.
  refine (match v with
          | Str s => cast_if (decide (upper s ∈ success_statuses))
          | _ => right _
          end); unfold success_status.
  - intros (s & Hs & _). discriminate Hs.
  - by exists s.
  - intros (s' & Hs & Hin). by injection Hs as ->.
  - intros (s & Hs & _). discriminate Hs.
Defined.

Definition failed_rows (df : DataFrame) : list Row :=
  filter (λ r, ¬ success_status (at_col "delivery_status" r)) (rows df).

Definition success_rows (df : DataFrame) : list Row :=
  filter (λ r, success_status (at_col "delivery_status" r)) (rows df).

(** What lines 53-61 add to one failed row of [df]. *)
Definition annotate (df : DataFrame) (r : Row) : Row :=
  let r := if has_column df "phone_number" then normalize_phone r else r in
  set_col "failure_reason"
    (if has_column df "delivery_description"
     then at_col "delivery_description" r
     else Str "No reason provided") r.

Definition failed_columns (df : DataFrame) : list string :=
  if has_column df "failure_reason" then columns df
  else columns df ++ ["failure_reason"].

(** The digits of a row's phone number, as line 175 computes them. *)
Definition clean_text (r : Row) : string :=
  remove_nondigits (cell_str (at_col "phone_number" r)).

(** What lines 175-176 add to one row. *)
Definition validated (r : Row) : Row :=
  set_col "is_valid" (Bool (10 <=? String.length (clean_text r))%nat)
    (set_col "phone_clean" (Str (clean_text r)) r).

Definition validated_columns (df : DataFrame) : list string :=
  columns (setitem (setitem df "phone_clean" (Scalar NaN)) "is_valid" (Scalar NaN)).

(** A phone number without any digit. *)
Definition digitless (v : cell) : bool :=
  match v with
  | Str s => no_digits s
  | _ => true
  end.


(** The values of a series that [duplicated] does not mark, given the
    values seen before it starts. *)
Definition first_seen_from {A} `{EqDecision A} (seen l : list A) : list A :=
  keep l (invert (duplicated_from seen l)).

(** ** Sample reports *)

Definition csv_row (i : nat) (phone status description : cell) : Row :=
  mkRow i (<["phone_number" := phone]>
          (<["delivery_status" := status]>
          (<["delivery_description" := description]> ∅))).

Definition report_columns : list string :=
  ["phone_number"; "delivery_status"; "delivery_description"].

(** The four message report of the specification's end-to-end scenario;
    its empty fields are read as [NaN]. *)
Definition scenario : DataFrame :=
  mkDF report_columns
    [ csv_row 0 (Str "1234567890") (Str "DELIVERED") NaN;
      csv_row 1 (Str "555") (Str "FAILED") (Str "Invalid number");
      csv_row 2 (Str "9998887776") (Str "FAILED") (Str "Invalid number");
      csv_row 3 NaN (Str "EXPIRED") NaN ].




(** A report whose header has no delivery status. *)
Definition report_without_status : DataFrame :=
  mkDF ["phone_number"; "delivery_description"]
    [ mkRow 0 (<["phone_number" := Str "9998887776"]>
              (<["delivery_description" := Str "Invalid number"]> ∅)) ].

(** A report with its header and no message. *)
Definition report_without_rows : DataFrame := mkDF report_columns [].

(** A number written with its country code and separators. *)
Definition formatted_report : DataFrame :=
  mkDF report_columns [ csv_row 0 (Str "+91-98765 43210") (Str "DELIVERED") NaN ].

(** Numbers of nine and of ten digits. *)
Definition boundary_report : DataFrame :=
  mkDF report_columns
    [ csv_row 0 (Str "123456789") (Str "DELIVERED") NaN;
      csv_row 1 (Str "1234567890") (Str "DELIVERED") NaN;
      csv_row 2 (Str "0000000000") (Str "DELIVERED") NaN ].

(** Numbers without digits. *)
Definition digitless_report : DataFrame :=
  mkDF report_columns
    [ csv_row 0 (Str "unknown") (Str "FAILED") NaN;
      csv_row 1 NaN (Str "FAILED") NaN;
      csv_row 2 (Str "+-() ") (Str "READ") NaN ].

(** Failed messages of which two share a phone number and a reason. *)
Definition repeated_failures : DataFrame :=
  mkDF ["phone_number"; "failure_reason"]
    ((λ '(i, phone, reason),
        mkRow i (<["phone_number" := Str phone]>
                (<["failure_reason" := Str reason]> ∅))) <$>
     [ (0%nat, "222", "Invalid number"); (1%nat, "111", "Blocked");
       (2%nat, "111", "Invalid number"); (3%nat, "222", "Invalid number");
       (4%nat, "333", "Invalid number ") ]).

(** ** The rest of the script *)

(** *** Column labels, line 25 *)

(** The characters [str.strip()] removes, on ASCII text: tab to carriage
    return, the four separators and the space. *)
Definition is_space (c : ascii) : bool :=
  let n := nat_of_ascii c in
  ((9 <=? n)%nat && (n <=? 13)%nat) || ((28 <=? n)%nat && (n <=? 32)%nat).

Definition is_upper (c : ascii) : bool :=
  let n := nat_of_ascii c in (65 <=? n)%nat && (n <=? 90)%nat.

Definition lower_char (c : ascii) : ascii :=
  if is_upper c then ascii_of_nat (nat_of_ascii c + 32) else c.

(** [str.lower()] *)
Fixpoint lower (s : string) : string :=
  match s with
  | EmptyString => EmptyString
  | String c s' => String (lower_char c) (lower s')
  end.

(** [str.lstrip()] *)
Fixpoint lstrip (s : string) : string :=
  match s with
  | EmptyString => EmptyString
  | String c s' => if is_space c then lstrip s' else s
  end.

(** [str.rstrip()] *)
Fixpoint rstrip (s : string) : string :=
  match s with
  | EmptyString => EmptyString
  | String c s' =>
      match rstrip s' with
      | EmptyString => if is_space c then EmptyString else String c EmptyString
      | t => String c t
      end
  end.

(** [str.strip()] *)
Definition strip (s : string) : string := rstrip (lstrip s).

(** Line 25, on one label:
    [.str.strip().str.lower().str.replace(' ', '_')]. *)
Definition standardize_name (s : string) : string :=
  replace_spaces (lower (strip s)).

(** A character by character rewriting of a text, and a test of all its
    characters. *)
Fixpoint map_chars (f : ascii → ascii) (s : string) : string :=
  match s with
  | EmptyString => EmptyString
  | String c s' => String (f c) (map_chars f s')
  end.

Fixpoint all_chars (p : ascii → bool) (s : string) : bool :=
  match s with
  | EmptyString => true
  | String c s' => p c && all_chars p s'
  end.

Definition space_to_underscore (c : ascii) : ascii :=
  if Ascii.eqb c " "%char then "_"%char else c.

(** What a standardised label never holds: a space or a capital. *)
Definition label_char (c : ascii) : bool :=
  negb (Ascii.eqb c " "%char) && negb (is_upper c).

(** Whether a text starts with something [lstrip] keeps. *)
Definition starts_ok (s : string) : bool :=
  match s with
  | EmptyString => true
  | String c _ => negb (is_space c)
  end.

(** *** Values of a loaded phone number *)

(** What [load_data] leaves in the phone column: nothing, or a run of at
    least one digit. *)
Definition extracted (v : cell) : Prop :=
  v = NaN ∨ ∃ d, v = Str d ∧ all_digits d = true ∧ d ≠ "".

(** A report whose numbers carry signs, separators and a decimal part. *)
Definition raw_numbers_report : DataFrame :=
  mkDF report_columns
    [ csv_row 0 (Str "+919876543210") (Str "DELIVERED") NaN;
      csv_row 1 (Str "919876543210.0") (Str "FAILED") (Str "Blocked");
      csv_row 2 (Str "n/a") (Str "FAILED") NaN ].

(** *** The invalid numbers, line 189 *)

Definition invalid_numbers (df : DataFrame) : outcome DataFrame :=
  select_columns (boolean_index df (invert (as_mask (column df "is_valid"))))
    ["phone_number"; "phone_clean"].

(** A row whose phone number has fewer than ten digits. *)
Definition short_number (r : Row) : Prop :=
  (String.length (clean_text r) < 10)%nat.

#[global] Instance short_number_dec r : Decision (short_number r).
Proof. unfold short_number. apply _. Defined.

(** A report of which every number is valid, and every message
    delivered. *)
Definition valid_numbers_report : DataFrame :=
  mkDF report_columns
    [ csv_row 0 (Str "919876543210") (Str "DELIVERED") NaN;
      csv_row 1 (Str "1234567890") (Str "READ") NaN ].

(** *** The failure counts, lines 99-100 *)

(** How often [v] occurs in a series. *)
Definition count_of (v : cell) (s : Series) : nat :=
  length (filter (v =.) s).

(** [s.dropna()] *)
Definition dropna (s : Series) : Series := filter (.≠ NaN) s.

Definition more_frequent (a b : cell * nat) : Prop := (b.2 ≤ a.2)%nat.

#[global] Instance more_frequent_dec a b : Decision (more_frequent a b).
Proof. unfold more_frequent. apply _. Defined.

(** [s.value_counts()]: the values that are not missing, each once and
    with the number of its occurrences, the most frequent first.  pandas
    leaves the order of values with equal counts open; the sort used here
    gives one such order. *)
Definition value_counts (s : Series) : list (cell * nat) :=
  merge_sort more_frequent
    ((λ v, (v, count_of v s)) <$> first_seen_from [] (dropna s)).

(** Lines 99-100: the table of failure reasons and their counts. *)
Definition failure_counts (failed_messages : DataFrame)
    : outcome (list (cell * nat)) :=
  obind (getitem failed_messages "failure_reason") (λ reason,
  Ok (value_counts reason)).

(** A report without the description column: two failed messages and a
    delivered one. *)
Definition report_without_description : DataFrame :=
  mkDF ["phone_number"; "delivery_status"]
    ((λ '(i, phone, status),
        mkRow i (<["phone_number" := Str phone]>
                (<["delivery_status" := Str status]> ∅))) <$>
     [ (0%nat, "9998887776", "FAILED"); (1%nat, "1234567890", "delivered");
       (2%nat, "555", "EXPIRED") ]).

(** *** The status column *)

(** The mask of line 51 once the accessor has taken the column. *)
Definition status_mask (df : DataFrame) : list bool :=
  invert (isin (upper_values (column df "delivery_status")) success_statuses).

(** A report every status field of which is empty. *)
Definition blank_status_report : DataFrame :=
  mkDF report_columns
    [ csv_row 0 (Str "9998887776") NaN (Str "Invalid number");
      csv_row 1 (Str "555") NaN NaN ].


(** *** The upload, lines 17-22, 39-41 and 66-69 *)



(** ** Rows, masks and column updates *)

Section Lists.
Context {A B : Type}.
Implicit Types (l : list A) (mask : list bool).

Lemma keep_nil_r l : keep l [] = [].
Proof. by destruct l. Qed.

Lemma keep_fmap (f : A → B) l mask : f <$> keep l mask = keep (f <$> l) mask.
Proof.
  revert mask. induction l as [|x l IH]; intros [|[] mask]; simpl; try done.
  by rewrite IH.
Qed.

(** A mask computed from the rows themselves is a filter. *)
Lemma keep_test (P : A → Prop) `{!∀ x, Decision (P x)} l :
  keep l ((λ x, bool_decide (P x)) <$> l) = filter P l.
Proof.
  induction l as [|x l IH]; [done|].
  rewrite fmap_cons, filter_cons. cbn [keep]. rewrite IH.
  by case_bool_decide; case_decide.
Qed.

Lemma keep_test_not (P : A → Prop) `{!∀ x, Decision (P x)} l :
  keep l (invert ((λ x, bool_decide (P x)) <$> l)) = filter (λ x, ¬ P x) l.
Proof.
  unfold invert. rewrite <- list_fmap_compose.
  rewrite <- (keep_test (λ x, ¬ P x)). f_equal.
  apply list_fmap_ext. intros _ x _. simpl.
  by rewrite bool_decide_not.
Qed.

(** The two halves of a split by a test. *)
Lemma filter_split_length (P : A → Prop) `{!∀ x, Decision (P x)} l :
  (length (filter P l) + length (filter (λ x, ¬ P x) l) = length l)%nat.
Proof.
  induction l as [|x l IH]; [done|].
  rewrite !filter_cons. destruct (decide (P x)) as [HP|HP].
  - rewrite decide_False; [|by intros ?]. simpl. lia.
  - rewrite decide_True; [|done]. simpl. lia.
Qed.
End Lists.

Section Cells.
Implicit Types (c : string) (r : Row) (v : cell).

Lemma at_col_set_col c v r : at_col c (set_col c v r) = v.
Proof. unfold at_col, set_col. simpl. by rewrite lookup_insert_eq. Qed.

Lemma at_col_set_col_ne c c' v r :
  c ≠ c' → at_col c' (set_col c v r) = at_col c' r.
Proof. intros Hne. unfold at_col, set_col. simpl. by rewrite lookup_insert_ne. Qed.

Lemma label_set_col c v r : label (set_col c v r) = label r.
Proof. done. Qed.

(** Assigning a series computed row by row updates every row in place. *)
Lemma assign_fmap c (g : Row → cell) (rs : list Row) :
  assign c rs (g <$> rs) = (λ r, set_col c (g r) r) <$> rs.
Proof.
  induction rs as [|r rs IH]; [done|].
  rewrite !fmap_cons. cbn [assign]. by rewrite IH.
Qed.

Lemma at_col_project c r : at_col c (project [c] r) = at_col c r.
Proof. unfold at_col at 1, project. simpl. by rewrite lookup_insert_eq. Qed.
End Cells.

Lemma has_column_true df c : has_column df c = true ↔ c ∈ columns df.
Proof. unfold has_column. apply bool_decide_eq_true. Qed.

Lemma getitem_column df c :
  has_column df c = true → getitem df c = Ok (column df c).
Proof. intros H. unfold getitem. by rewrite H. Qed.

Lemma getitem_missing df c :
  has_column df c = false → getitem df c = Raise (KeyError c).
Proof. intros H. unfold getitem. by rewrite H. Qed.

(** A selection of columns the frame has. *)
Lemma select_columns_ok df cs :
  forallb (has_column df) cs = true →
  select_columns df cs = Ok (mkDF cs (project cs <$> rows df)).
Proof.
  intros H. unfold select_columns.
  assert (missing_columns df cs = []) as ->; [|done].
  unfold missing_columns. induction cs as [|c cs IH]; [done|].
  cbn [forallb] in H. apply andb_true_iff in H as [Hc Hcs].
  cbn [List.filter]. rewrite Hc. by apply IH.
Qed.

(** ** Runs and how they end *)

Section Runs.
Context {A B : Type}.
Implicit Types (m : io A) (k : A → io B).


Lemma bind_events m k :
  (bind m k).1 = m.1 ++ match m.2 with Ok a => (k a).1 | Raise e => [] end.
Proof.
  destruct m as [w [a|e]]; cbn [bind fst snd].
  - by destruct (k a).
  - symmetry. apply app_nil_r.
Qed.

Lemma bind_lift_ok (a : A) k : bind (lift (Ok a)) k = k a.
Proof. cbn. by destruct (k a). Qed.

End Runs.

Lemma bind_emit {B} u (k : unit → io B) :
  bind (emit u) k = (u :: (k tt).1, (k tt).2).
Proof. cbn. by destruct (k tt). Qed.


(** ** The pipeline read row by row: lemmas *)


Lemma setitem_by_row df c (g : Row → cell) :
  rows (setitem df c (Col (g <$> rows df))) = (λ r, set_col c (g r) r) <$> rows df.
Proof. simpl. apply assign_fmap. Qed.

Lemma extract_column df c :
  str_extract_digits (astype_str (column df c))
  = (λ r, extract_digits (cell_str (at_col c r))) <$> rows df.
Proof.
  unfold str_extract_digits, astype_str, column.
  by rewrite <- !list_fmap_compose.
Qed.

Lemma load_data_phone file :
  has_column file "phone_number" = true →
  load_data file = mkDF (columns file) (normalize_phone <$> rows file).
Proof.
  intros H. unfold load_data. rewrite H, extract_column.
  unfold setitem. rewrite H. f_equal. apply assign_fmap.
Qed.

Lemma load_data_no_phone file :
  has_column file "phone_number" = false → load_data file = file.
Proof. intros H. unfold load_data. by rewrite H. Qed.

Lemma columns_load_data file : columns (load_data file) = columns file.
Proof.
  destruct (has_column file "phone_number") eqn:H.
  - by rewrite load_data_phone.
  - by rewrite load_data_no_phone.
Qed.

Lemma has_column_load_data file c :
  has_column (load_data file) c = has_column file c.
Proof. unfold has_column. by rewrite columns_load_data. Qed.

Lemma length_load_data file :
  length (rows (load_data file)) = length (rows file).
Proof.
  destruct (has_column file "phone_number") eqn:H.
  - rewrite load_data_phone by done. simpl. by rewrite length_fmap.
  - by rewrite load_data_no_phone.
Qed.

Lemma len_load_data file : len (load_data file) = len file.
Proof. unfold len. by rewrite length_load_data. Qed.


Lemma isin_upper_success v :
  bool_decide (match v with Str x => Str (upper x) | _ => NaN end
               ∈ Str <$> success_statuses)
  = bool_decide (success_status v).
Proof.
  apply bool_decide_ext. unfold success_status.
  rewrite list_elem_of_fmap. split.
  - intros (t & Ht & Hin). destruct v as [|x|b]; try discriminate Ht.
    injection Ht as Ht. exists x. by rewrite Ht.
  - intros (x & -> & Hin). by exists (upper x).
Qed.

Lemma success_mask_by_row df :
  isin (upper_values (column df "delivery_status")) success_statuses
  = (λ r, bool_decide (success_status (at_col "delivery_status" r))) <$> rows df.
Proof.
  unfold isin, upper_values, column. rewrite <- !list_fmap_compose.
  apply list_fmap_ext. intros _ r _. apply isin_upper_success.
Qed.

Lemma keep_success df :
  keep (rows df) (isin (upper_values (column df "delivery_status")) success_statuses)
  = filter (λ r, success_status (at_col "delivery_status" r)) (rows df).
Proof. rewrite success_mask_by_row. apply keep_test. Qed.

Lemma keep_failure df :
  keep (rows df) (status_mask df)
  = filter (λ r, ¬ success_status (at_col "delivery_status" r)) (rows df).
Proof.
  unfold status_mask. rewrite success_mask_by_row.
  apply (keep_test_not (λ r, success_status (at_col "delivery_status" r))).
Qed.

(** The accessor: taken on an object column, refused on any other. *)
Lemma str_upper_object (s : Series) :
  object_column s = true → str_upper s = Ok (upper_values s).
Proof. intros H. unfold str_upper, str_accessor. by rewrite H. Qed.

Lemma str_upper_refused (s : Series) :
  object_column s = false → str_upper s = Raise AttributeError.
Proof. intros H. unfold str_upper, str_accessor. by rewrite H. Qed.

Lemma failure_mask_object df :
  object_column (column df "delivery_status") = true →
  failure_mask df = Ok (status_mask df).
Proof. intros H. unfold failure_mask. by rewrite str_upper_object. Qed.

Lemma failure_mask_refused df :
  object_column (column df "delivery_status") = false →
  failure_mask df = Raise AttributeError.
Proof. intros H. unfold failure_mask. by rewrite str_upper_refused. Qed.

Lemma object_column_empty df c : rows df = [] → object_column (column df c) = true.
Proof. intros H. unfold object_column, column. by rewrite H. Qed.


Lemma analyze_failures_missing df :
  has_column df "delivery_status" = false →
  analyze_failures df
  = ([warning "Delivery Status column not found"], Ok DataFrame_new).
Proof. intros H. unfold analyze_failures. by rewrite H. Qed.


Lemma columns_nonempty df c : has_column df c = true → columns df ≠ [].
Proof.
  intros H%has_column_true E. rewrite E in H. by apply elem_of_nil in H.
Qed.

(** [analyze_failures] on a table with a status column: the failed rows
    in order, each annotated, and at most the phone column warning. *)
Lemma analyze_failures_frame df :
  has_column df "delivery_status" = true →
  object_column (column df "delivery_status") = true →
  analyze_failures df =
    if decide (failed_rows df = []) then ([], Ok (mkDF (columns df) []))
    else (if has_column df "phone_number" then []
          else [warning "Phone Number column not found in the data"],
          Ok (mkDF (failed_columns df) (annotate df <$> failed_rows df))).
Proof.
  intros Hst Hobj. unfold analyze_failures. rewrite Hst. cbn [negb].
  rewrite failure_mask_object, bind_lift_ok by done.
  pose proof (columns_nonempty _ _ Hst) as Hcols.
  unfold empty, boolean_index. cbn [rows columns].
  rewrite keep_failure. fold (failed_rows df).
  rewrite (bool_decide_eq_false_2 _ Hcols), orb_false_r.
  destruct (decide (failed_rows df = [])) as [E|E].
  - rewrite bool_decide_eq_true_2 by done. cbn. by rewrite E.
  - rewrite bool_decide_eq_false_2 by done. cbn [negb].
    unfold annotate, failed_columns.
    destruct (has_column df "phone_number") eqn:Hph;
      destruct (has_column df "delivery_description") eqn:Hd;
      destruct (has_column df "failure_reason") eqn:Hfr;
      cbn [bind ret emit app]; rewrite ?extract_column;
      unfold setitem, df_get, column, has_column in *;
      cbn [columns rows]; rewrite ?Hph, ?Hd, ?Hfr; cbn [columns rows];
      rewrite ?assign_fmap; rewrite <- ?list_fmap_compose; reflexivity.
Qed.

(** On a status column the accessor refuses, line 51 raises. *)
Lemma analyze_failures_refused df :
  has_column df "delivery_status" = true →
  object_column (column df "delivery_status") = false →
  analyze_failures df = ([], Raise AttributeError).
Proof.
  intros Hst Hobj. unfold analyze_failures. rewrite Hst. cbn [negb].
  by rewrite failure_mask_refused.
Qed.

Lemma rows_analyze_failures df :
  has_column df "delivery_status" = true →
  object_column (column df "delivery_status") = true →
  rows (run_frame (analyze_failures df)) = annotate df <$> failed_rows df.
Proof.
  intros Hst Hobj. rewrite analyze_failures_frame by done.
  destruct (decide (failed_rows df = [])) as [E|E]; [by rewrite E|done].
Qed.


Lemma overview_counts_frame df :
  has_column df "delivery_status" = true →
  object_column (column df "delivery_status") = true →
  overview_counts df
  = Ok (len df, Z.of_nat (length (success_rows df)),
        len df - Z.of_nat (length (success_rows df))).
Proof.
  intros Hst Hobj. unfold overview_counts. rewrite getitem_column by done.
  cbn [obind]. rewrite str_upper_object by done.
  cbn [obind]. unfold len at 2, boolean_index. cbn [rows].
  by rewrite keep_success.
Qed.

(** On a status column the accessor refuses, line 74 raises. *)
Lemma overview_counts_refused df :
  has_column df "delivery_status" = true →
  object_column (column df "delivery_status") = false →
  overview_counts df = Raise AttributeError.
Proof.
  intros Hst Hobj. unfold overview_counts. rewrite getitem_column by done.
  cbn [obind]. by rewrite str_upper_refused.
Qed.

Lemma column_load_data file c :
  c ≠ "phone_number" → column (load_data file) c = column file c.
Proof.
  intros Hc. destruct (has_column file "phone_number") eqn:Hph.
  - rewrite load_data_phone by done. unfold column. cbn [rows].
    rewrite <- list_fmap_compose. apply list_fmap_ext. intros _ r _. cbn.
    unfold normalize_phone. by rewrite at_col_set_col_ne.
  - by rewrite load_data_no_phone.
Qed.

Lemma object_status_load_data file :
  object_column (column (load_data file) "delivery_status")
  = object_column (column file "delivery_status").
Proof. by rewrite column_load_data. Qed.

Lemma success_failed_rows df :
  (length (success_rows df) + length (failed_rows df) = length (rows df))%nat.
Proof. apply filter_split_length. Qed.


Lemma assign_fmap2 {A} c (f : A → Row) (g : A → cell) (l : list A) :
  assign c (f <$> l) (g <$> l) = (λ x, set_col c (g x) (f x)) <$> l.
Proof.
  induction l as [|x l IH]; [done|].
  rewrite !fmap_cons. cbn [assign]. by rewrite IH.
Qed.

Lemma series_apply_is_valid (l : list string) :
  series_apply is_valid (Str <$> l)
  = Ok ((λ s, (10 <=? String.length s)%nat) <$> l).
Proof.
  induction l as [|s l IH]; [done|].
  rewrite !fmap_cons. cbn [series_apply is_valid obind]. by rewrite IH.
Qed.

Lemma validate_phones_frame df :
  validate_phones df = Ok (mkDF (validated_columns df) (validated <$> rows df)).
Proof.
  unfold validate_phones.
  set (df1 := setitem df "phone_clean" _).
  assert (E1 : rows df1
               = (λ r, set_col "phone_clean" (Str (clean_text r)) r) <$> rows df).
  { subst df1. unfold str_replace_nondigits, astype_str, column.
    rewrite <- !list_fmap_compose. apply setitem_by_row. }
  assert (E2 : column df1 "phone_clean" = Str <$> (clean_text <$> rows df)).
  { unfold column. rewrite E1, <- !list_fmap_compose.
    apply list_fmap_ext. intros _ r _. apply at_col_set_col. }
  rewrite E2, series_apply_is_valid. cbn [obind]. f_equal.
  unfold setitem at 1. f_equal. rewrite E1, <- !list_fmap_compose.
  apply assign_fmap2.
Qed.

Lemma sum_bool_bounds (s : Series) : 0 ≤ sum_bool s ≤ Z.of_nat (length s).
Proof.
  induction s as [|[| |[]] s IH]; cbn [sum_bool length]; lia.
Qed.

(** ** Digits in text *)

Section Text.
Implicit Types (s d : string).

Lemma digit_prefix_all_digits s : all_digits (digit_prefix s) = true.
Proof.
  induction s as [|c s IH]; [done|]. cbn [digit_prefix].
  destruct (is_digit c) eqn:Hc; [|done].
  cbn [all_digits]. by rewrite Hc, IH.
Qed.

Lemma digit_prefix_fixed d : all_digits d = true → digit_prefix d = d.
Proof.
  induction d as [|c d IH]; [done|]. cbn [all_digits digit_prefix].
  intros [Hc Hd]%andb_true_iff. by rewrite Hc, IH.
Qed.

Lemma remove_nondigits_all_digits s : all_digits (remove_nondigits s) = true.
Proof.
  induction s as [|c s IH]; [done|]. cbn [remove_nondigits].
  destruct (is_digit c) eqn:Hc; [|done].
  cbn [all_digits]. by rewrite Hc, IH.
Qed.

Lemma remove_nondigits_fixed d : all_digits d = true → remove_nondigits d = d.
Proof.
  induction d as [|c d IH]; [done|]. cbn [all_digits remove_nondigits].
  intros [Hc Hd]%andb_true_iff. by rewrite Hc, IH.
Qed.

Lemma remove_nondigits_none s : no_digits s = true → remove_nondigits s = "".
Proof.
  induction s as [|c s IH]; [done|]. cbn [no_digits remove_nondigits].
  intros [Hc Hs]%andb_true_iff. apply negb_true_iff in Hc.
  rewrite Hc. by apply IH.
Qed.

Lemma search_digits_none s : no_digits s = true → search_digits s = None.
Proof.
  induction s as [|c s IH]; [done|]. cbn [no_digits search_digits].
  intros [Hc Hs]%andb_true_iff. apply negb_true_iff in Hc.
  rewrite Hc. by apply IH.
Qed.

(** A match of [\d+] is a run of digits with at least one digit. *)
Lemma search_digits_run s d :
  search_digits s = Some d → all_digits d = true ∧ d ≠ "".
Proof.
  induction s as [|c s IH]; [done|]. cbn [search_digits].
  destruct (is_digit c) eqn:Hc; [|done].
  intros [= <-]. cbn [all_digits].
  by rewrite Hc, digit_prefix_all_digits.
Qed.

(** Searching a run of digits again finds the whole run. *)
Lemma search_digits_fixed d :
  all_digits d = true → d ≠ "" → search_digits d = Some d.
Proof.
  destruct d as [|c d]; [done|]. cbn [all_digits search_digits].
  intros [Hc Hd]%andb_true_iff _. by rewrite Hc, digit_prefix_fixed.
Qed.

Lemma extract_digits_idempotent (v : cell) :
  extract_digits (cell_str (extract_digits (cell_str v)))
  = extract_digits (cell_str v).
Proof.
  unfold extract_digits at 2 3.
  destruct (search_digits (cell_str v)) as [d|] eqn:Hd; [|done].
  apply search_digits_run in Hd as [Hall Hne].
  unfold extract_digits. cbn [cell_str]. by rewrite search_digits_fixed.
Qed.
End Text.

(** ** Dropping duplicates *)

Section FirstSeen.
Context {A : Type} `{EqDecision A}.
Implicit Types (seen l : list A).

Lemma first_seen_cons seen x l :
  first_seen_from seen (x :: l)
  = if decide (x ∈ seen) then first_seen_from (x :: seen) l
    else x :: first_seen_from (x :: seen) l.
Proof.
  unfold first_seen_from, invert. cbn [duplicated_from].
  rewrite fmap_cons. cbn [keep]. by case_bool_decide; case_decide.
Qed.

Lemma elem_of_first_seen seen l y :
  y ∈ first_seen_from seen l ↔ y ∈ l ∧ y ∉ seen.
Proof.
  revert seen. induction l as [|x l IH]; intros seen.
  - unfold first_seen_from. cbn. rewrite elem_of_nil. tauto.
  - rewrite first_seen_cons. case_decide as Hx.
    + rewrite IH, not_elem_of_cons, elem_of_cons.
      split; [tauto|]. intros [[->|Hy] Hn]; [done|]. split; [done|].
      split; [|done]. by intros ->.
    + rewrite elem_of_cons, IH, not_elem_of_cons, elem_of_cons.
      split.
      * intros [->|(Hy & Hne & Hn)]; [by split; [left|]|by split; [right|]].
      * intros [[->|Hy] Hn]; [by left|].
        destruct (decide (y = x)) as [->|Hne]; [by left|by right].
Qed.

Lemma NoDup_first_seen seen l : NoDup (first_seen_from seen l).
Proof.
  revert seen. induction l as [|x l IH]; intros seen.
  - apply NoDup_nil_2.
  - rewrite first_seen_cons. case_decide; [apply IH|].
    apply NoDup_cons. split; [|apply IH].
    rewrite elem_of_first_seen, not_elem_of_cons. tauto.
Qed.

(** The values come out in the order of their first occurrence: when
    [p] comes out before [q], [p] occurs in the series before [q] does
    for the first time. *)
Lemma first_seen_order seen l i j p q :
  (i < j)%nat →
  first_seen_from seen l !! i = Some p →
  first_seen_from seen l !! j = Some q →
  ∃ k, l !! k = Some p ∧ ∀ k', (k' ≤ k)%nat → l !! k' ≠ Some q.
Proof.
  revert seen i j. induction l as [|x l IH]; intros seen i j Hij Hp Hq.
  - by destruct i.
  - rewrite first_seen_cons in Hp, Hq.
    assert (Hstep : ∀ i' j', (i' < j')%nat →
              first_seen_from (x :: seen) l !! i' = Some p →
              first_seen_from (x :: seen) l !! j' = Some q →
              ∃ k, (x :: l) !! k = Some p
                   ∧ ∀ k', (k' ≤ k)%nat → (x :: l) !! k' ≠ Some q).
    { intros i' j' Hij' Hp' Hq'.
      destruct (IH _ _ _ Hij' Hp' Hq') as (k & Hk & Hfirst).
      exists (S k). split; [done|]. intros [|k'] Hle; cbn.
      - intros [= ->].
        apply list_elem_of_lookup_2, elem_of_first_seen in Hq' as [_ Hn].
        apply Hn, list_elem_of_here.
      - apply Hfirst. lia. }
    case_decide as Hx; [by eapply Hstep|].
    destruct i as [|i]; destruct j as [|j]; try lia.
    + injection Hp as ->. cbn in Hq.
      exists 0%nat. split; [done|]. intros k' Hle.
      assert (k' = 0)%nat as -> by lia. cbn. intros [= ->].
      apply list_elem_of_lookup_2, elem_of_first_seen in Hq as [_ Hn].
      apply Hn, list_elem_of_here.
    + cbn in Hp, Hq. eapply Hstep; [|done..]. lia.
Qed.

Lemma duplicated_from_inj {B} `{EqDecision B} (g : A → B) `{!Inj (=) (=) g}
    seen l :
  duplicated_from (g <$> seen) (g <$> l) = duplicated_from seen l.
Proof.
  revert seen. induction l as [|x l IH]; intros seen; [done|].
  rewrite fmap_cons. cbn [duplicated_from]. f_equal.
  - apply bool_decide_ext. rewrite list_elem_of_fmap. split.
    + by intros (y & ->%(inj g) & Hy).
    + intros Hx. by exists x.
  - rewrite <- fmap_cons. apply IH.
Qed.
End FirstSeen.

(** ** Failure classification *)

Lemma at_col_annotate df c r :
  c ≠ "phone_number" → c ≠ "failure_reason" →
  at_col c (annotate df r) = at_col c r.
Proof.
  intros Hp Hf. unfold annotate.
  rewrite at_col_set_col_ne by done.
  destruct (has_column df "phone_number"); [|done].
  unfold normalize_phone. by rewrite at_col_set_col_ne.
Qed.

Lemma label_annotate df r : label (annotate df r) = label r.
Proof. unfold annotate. by destruct (has_column df "phone_number"). Qed.





(** ** Counts *)

Lemma length_column df c : length (column df c) = length (rows df).
Proof. unfold column. apply length_fmap. Qed.

(** C2: the counts of the overview and of the phone validation each add
    up to the number of rows of the report: success + failed = total and
    valid + invalid = total, with no count negative.  The overview has
    its counts whenever the status column is one of text. *)
Theorem counts_add_up (file : DataFrame) :
  let df := load_data file in
  let total_count := Z.of_nat (length (rows file)) in
  (∀ total success failed,
     overview_counts df = Ok (total, success, failed) →
     total = total_count ∧ success + failed = total_count
     ∧ 0 ≤ success ∧ 0 ≤ failed)
  ∧ (has_column file "delivery_status" = true →
     object_column (column file "delivery_status") = true →
     ∃ success failed, overview_counts df = Ok (total_count, success, failed))
  ∧ (has_column file "phone_number" = true →
     ∃ checked valid_count invalid_count,
       validate_phones df = Ok checked
       ∧ phone_counts checked = (valid_count, invalid_count)
       ∧ valid_count + invalid_count = total_count
       ∧ 0 ≤ valid_count ∧ 0 ≤ invalid_count).
Proof.
  intros df total_count.
  pose proof (length_load_data file) as Hlen. fold df in Hlen.
  split; [|split].
  - intros total success failed.
    destruct (has_column df "delivery_status") eqn:Hst.
    2: { unfold overview_counts. by rewrite getitem_missing. }
    destruct (object_column (column df "delivery_status")) eqn:Hobj.
    2: { by rewrite overview_counts_refused. }
    rewrite overview_counts_frame by done. intros [= <- <- <-].
    pose proof (success_failed_rows df) as Hsum.
    subst total_count. unfold len. rewrite Hlen. lia.
  - intros Hst Hobj. subst df.
    rewrite overview_counts_frame
      by (by rewrite ?has_column_load_data, ?object_status_load_data).
    do 2 eexists. subst total_count. unfold len. by rewrite length_load_data.
  - intros _. rewrite validate_phones_frame. do 3 eexists.
    split; [done|]. split; [done|].
    match goal with |- context [sum_bool ?s] =>
      pose proof (sum_bool_bounds s) as Hb;
      assert (Hs : length s = length (rows df))
        by (rewrite length_column; simpl; apply length_fmap)
    end.
    unfold len. simpl rows. rewrite length_fmap.
    subst total_count. lia.
Qed.

Lemma counts_add_up_witness :
  ∃ success failed valid_count invalid_count,
    overview_counts (load_data scenario) = Ok (4, success, failed)
    ∧ success + failed = 4
    ∧ (∃ checked, validate_phones (load_data scenario) = Ok checked
                  ∧ phone_counts checked = (valid_count, invalid_count))
    ∧ valid_count + invalid_count = 4.
Proof.
  destruct (counts_add_up scenario) as (Hsum & Ho & Hp).
  destruct (Ho eq_refl eq_refl) as (success & failed & E1).
  destruct (Hsum _ _ _ E1) as (_ & E2 & _).
  destruct (Hp eq_refl) as (checked & v & i & E3 & E4 & E5 & _).
  exists success, failed, v, i.
  split; [exact E1|]. split; [exact E2|].
  split; [exists checked; split; [exact E3|exact E4]|exact E5].
Defined.

(** ** A report without delivery status *)

Lemma campaign_overview_missing_status df :
  has_column df "delivery_status" = false →
  campaign_overview df = ([], Raise (KeyError "delivery_status")).
Proof.
  intros H. unfold campaign_overview, overview_counts.
  by rewrite getitem_missing.
Qed.

(** Line 74 reads the status column before [analyze_failures] is called:
    without that column the script stops there, and the warning of line
    46 is never shown. *)
Lemma main_flow_missing_status file selected_reason :
  has_column file "delivery_status" = false →
  main_flow file selected_reason = ([], Raise (KeyError "delivery_status")).
Proof.
  intros H. unfold main_flow.
  rewrite campaign_overview_missing_status; [done|].
  by rewrite has_column_load_data.
Qed.

(** C6: on a report without a delivery status column, [analyze_failures]
    by itself shows the warning and returns the empty frame, but the
    script raises [KeyError] in the overview, before the classifier is
    reached: the run ends in a fault and shows no warning. *)
Theorem missing_status_column_stops_the_run :
  analyze_failures (load_data report_without_status)
  = ([warning "Delivery Status column not found"], Ok DataFrame_new)
  ∧ ∀ selected_reason,
      main_flow report_without_status selected_reason
      = ([], Raise (KeyError "delivery_status")).
Proof.
  split.
  - by apply analyze_failures_missing.
  - intros selected_reason. by apply main_flow_missing_status.
Qed.

(** ** A report without rows *)

(** C9: with zero rows, every percentage divides by a total of zero and
    nothing guards it.  The overview raises [ZeroDivisionError] right
    after showing the total, which ends the script; the phone validation
    divides by the same zero. *)
Theorem zero_rows_divide_by_zero (file : DataFrame) (selected_reason : option string) :
  rows file = [] →
  has_column file "delivery_status" = true →
  len (load_data file) = 0
  ∧ (∀ count, percent count (len (load_data file)) = Raise ZeroDivisionError)
  ∧ campaign_overview (load_data file)
    = ([metric "Total Messages" 0 None], Raise ZeroDivisionError)
  ∧ main_flow file selected_reason
    = ([metric "Total Messages" 0 None], Raise ZeroDivisionError)
  ∧ (has_column file "phone_number" = true →
     phone_validation (load_data file) = ([], Raise ZeroDivisionError)).
Proof.
  intros Hrows Hst.
  assert (Hlen : len (load_data file) = 0).
  { rewrite len_load_data. unfold len. by rewrite Hrows. }
  assert (Hpct : ∀ count, percent count (len (load_data file)) = Raise ZeroDivisionError).
  { intros count. by rewrite Hlen. }
  assert (Hover : campaign_overview (load_data file)
                  = ([metric "Total Messages" 0 None], Raise ZeroDivisionError)).
  { unfold campaign_overview.
    rewrite overview_counts_frame;
      [|by rewrite has_column_load_data
       |apply object_column_empty, length_zero_iff_nil;
        by rewrite length_load_data, Hrows].
    rewrite Hlen.
    assert (success_rows (load_data file) = []) as ->; [|done].
    apply length_zero_iff_nil.
    pose proof (success_failed_rows (load_data file)).
    rewrite length_load_data, Hrows in *. simpl in *. lia. }
  repeat split; try done.
  - unfold main_flow. by rewrite Hover.
  - intros Hph. unfold phone_validation.
    rewrite has_column_load_data, Hph, validate_phones_frame.
    rewrite load_data_phone by done. rewrite Hrows. done.
Qed.

Lemma zero_rows_divide_by_zero_witness :
  main_flow report_without_rows None
  = ([metric "Total Messages" 0 None], Raise ZeroDivisionError).
Proof.
  apply (zero_rows_divide_by_zero report_without_rows None); reflexivity.
Defined.

(** ** Failure reasons *)


Lemma failure_reason_annotate df r0 :
  at_col "failure_reason" (annotate df r0)
  = if has_column df "delivery_description"
    then at_col "delivery_description" (annotate df r0)
    else Str "No reason provided".
Proof.
  unfold annotate. rewrite at_col_set_col.
  destruct (has_column df "delivery_description"); [|done].
  by rewrite at_col_set_col_ne.
Qed.





(** ** Phone numbers *)

Lemma at_col_phone_annotate df r :
  has_column df "phone_number" = true →
  at_col "phone_number" (annotate df r)
  = extract_digits (cell_str (at_col "phone_number" r)).
Proof.
  intros Hph. unfold annotate. rewrite Hph.
  rewrite at_col_set_col_ne by done. apply at_col_set_col.
Qed.

(** C10: the digit extraction of [load_data] is idempotent.  Applied to
    a value it already produced it gives that value back, so the second
    extraction, in [analyze_failures], leaves the phone number of every
    failed row of a loaded report as it was.  (The status column is one
    of text: [analyze_failures] gets to the extraction.) *)
Theorem second_extraction_changes_nothing (file : DataFrame) :
  has_column file "phone_number" = true →
  has_column file "delivery_status" = true →
  object_column (column file "delivery_status") = true →
  let df := load_data file in
  (∀ v, extract_digits (cell_str (extract_digits (cell_str v)))
        = extract_digits (cell_str v))
  ∧ ∃ mask failed,
      failure_mask df = Ok mask
      ∧ (analyze_failures df).2 = Ok failed
      ∧ column failed "phone_number" = keep (column df "phone_number") mask
      ∧ label <$> rows failed = label <$> keep (rows df) mask.
Proof.
  intros Hph Hst Hobj df.
  assert (Hph' : has_column df "phone_number" = true)
    by (subst df; by rewrite has_column_load_data).
  assert (Hst' : has_column df "delivery_status" = true)
    by (subst df; by rewrite has_column_load_data).
  assert (Hobj' : object_column (column df "delivery_status") = true)
    by (subst df; by rewrite object_status_load_data).
  split; [apply extract_digits_idempotent|].
  exists (status_mask df), (run_frame (analyze_failures df)).
  split; [by apply failure_mask_object|]. split.
  { rewrite analyze_failures_frame by done.
    by destruct (decide (failed_rows df = [])). }
  split.
  - unfold column. rewrite rows_analyze_failures by done.
    rewrite <- keep_fmap, keep_failure. fold (failed_rows df).
    rewrite <- list_fmap_compose. apply list_fmap_ext. intros i r Hr. simpl.
    rewrite at_col_phone_annotate by done.
    apply list_elem_of_lookup_2, list_elem_of_filter in Hr as [_ Hr].
    subst df. rewrite load_data_phone in Hr by done.
    apply list_elem_of_fmap in Hr as (r0 & -> & _).
    unfold normalize_phone. rewrite at_col_set_col.
    apply extract_digits_idempotent.
  - rewrite rows_analyze_failures, keep_failure by done.
    rewrite <- list_fmap_compose. apply list_fmap_ext.
    intros _ r _. apply label_annotate.
Qed.

Lemma second_extraction_changes_nothing_witness :
  ∃ mask failed,
    failure_mask (load_data scenario) = Ok mask
    ∧ (analyze_failures (load_data scenario)).2 = Ok failed
    ∧ column failed "phone_number"
      = keep (column (load_data scenario) "phone_number") mask.
Proof.
  destruct (second_extraction_changes_nothing scenario eq_refl eq_refl eq_refl)
    as (_ & mask & failed & Hm & Hf & Hc & _).
  exists mask, failed. split; [exact Hm|]. split; [exact Hf|exact Hc].
Defined.

Lemma at_col_validated r :
  at_col "phone_clean" (validated r) = Str (clean_text r)
  ∧ at_col "is_valid" (validated r)
    = Bool (10 <=? String.length (clean_text r))%nat.
Proof.
  unfold validated. split.
  - rewrite at_col_set_col_ne by done. apply at_col_set_col.
  - apply at_col_set_col.
Qed.

(** What the two cleaning steps make of a number read from the file: the
    first run of digits, or nothing. *)
Lemma clean_text_normalize_phone r :
  clean_text (normalize_phone r)
  = match search_digits (cell_str (at_col "phone_number" r)) with
    | Some d => d
    | None => ""
    end.
Proof.
  unfold clean_text, normalize_phone. rewrite at_col_set_col.
  unfold extract_digits.
  destruct (search_digits _) as [d|] eqn:Hd; [|done].
  apply search_digits_run in Hd as [Hall _].
  by apply remove_nondigits_fixed.
Qed.

Lemma digitless_no_match v :
  digitless v = true → search_digits (cell_str v) = None.
Proof.
  destruct v as [|s|[]]; try done. apply search_digits_none.
Qed.

(** C8: a row whose phone number in the report has no digit gets the
    empty text as [phone_clean] and [False] as [is_valid]. *)
Theorem digitless_phone_is_invalid (file : DataFrame) :
  has_column file "phone_number" = true →
  ∃ checked,
    validate_phones (load_data file) = Ok checked
    ∧ ∀ i r, rows file !! i = Some r →
        digitless (at_col "phone_number" r) = true →
        ∃ r', rows checked !! i = Some r'
              ∧ label r' = label r
              ∧ at_col "phone_clean" r' = Str ""
              ∧ at_col "is_valid" r' = Bool false.
Proof.
  intros Hph. rewrite validate_phones_frame. eexists. split; [done|].
  intros i r Hr Hnone. cbn [rows].
  rewrite load_data_phone by done. cbn [rows].
  rewrite !list_lookup_fmap, Hr. cbn [fmap option_fmap option_map].
  eexists. split; [done|]. split; [done|].
  destruct (at_col_validated (normalize_phone r)) as [-> ->].
  rewrite clean_text_normalize_phone, digitless_no_match by done.
  done.
Qed.

Lemma digitless_phone_is_invalid_witness :
  ∃ checked,
    validate_phones (load_data digitless_report) = Ok checked
    ∧ at_col "phone_clean" <$> rows checked !! 0%nat = Some (Str "")
    ∧ at_col "is_valid" <$> rows checked !! 0%nat = Some (Bool false).
Proof.
  destruct (digitless_phone_is_invalid digitless_report eq_refl)
    as (checked & Hc & Hrow).
  destruct (Hrow 0%nat (csv_row 0 (Str "unknown") (Str "FAILED") NaN)
              eq_refl eq_refl) as (r' & Hr' & _ & Hclean & Hvalid).
  exists checked. rewrite Hr'. cbn [fmap option_fmap option_map].
  rewrite Hclean, Hvalid. done.
Defined.

(** C5: [is_valid] is [True] exactly when [phone_clean] has at least ten
    characters.  Nine digits are invalid, ten are valid, and so are ten
    zeros. *)
Theorem is_valid_iff_ten_digits (file : DataFrame) :
  has_column file "phone_number" = true →
  (∃ checked,
     validate_phones (load_data file) = Ok checked
     ∧ length (rows checked) = length (rows file)
     ∧ ∀ r, r ∈ rows checked →
         ∃ text, at_col "phone_clean" r = Str text
                 ∧ (at_col "is_valid" r = Bool true
                    ↔ (10 ≤ String.length text)%nat)
                 ∧ (at_col "is_valid" r = Bool false
                    ↔ (String.length text < 10)%nat))
  ∧ column (frame_of (validate_phones (load_data boundary_report))) "phone_clean"
    = [Str "123456789"; Str "1234567890"; Str "0000000000"]
  ∧ column (frame_of (validate_phones (load_data boundary_report))) "is_valid"
    = [Bool false; Bool true; Bool true].
Proof.
  intros Hph. split; [|by vm_compute].
  rewrite validate_phones_frame. eexists. split; [done|]. cbn [rows]. split.
  - by rewrite length_fmap, length_load_data.
  - intros r (r0 & -> & _)%list_elem_of_fmap.
    destruct (at_col_validated r0) as [-> ->].
    exists (clean_text r0). split; [done|].
    destruct (Nat.leb_spec 10 (String.length (clean_text r0))); split; split;
      first [done | lia | intros [=]].
Qed.

Lemma is_valid_iff_ten_digits_witness :
  column (frame_of (validate_phones (load_data boundary_report))) "is_valid"
  = [Bool false; Bool true; Bool true].
Proof.
  apply (is_valid_iff_ten_digits boundary_report). reflexivity.
Defined.

(** The same for a whole report: after [load_data], [phone_clean] is the
    first run of digits of the number in the report. *)
Lemma phone_clean_of_loaded_report file :
  has_column file "phone_number" = true →
  column (frame_of (validate_phones (load_data file))) "phone_clean"
  = (λ r, Str (match search_digits (cell_str (at_col "phone_number" r)) with
               | Some d => d
               | None => ""
               end)) <$> rows file.
Proof.
  intros Hph. rewrite validate_phones_frame, load_data_phone by done.
  unfold column. cbn [frame_of rows]. rewrite <- !list_fmap_compose.
  apply list_fmap_ext. intros _ r _. cbn.
  destruct (at_col_validated (normalize_phone r)) as [-> _].
  by rewrite clean_text_normalize_phone.
Qed.

(** C4: the digits of a number as it stands in the report are not what
    [phone_clean] holds.  [load_data] has already cut the number down to
    its first run of digits, so "+91-98765 43210" reaches line 175 as
    "91", [phone_clean] is "91" and the number is counted as invalid;
    line 175 applied to the text of the report would give
    "919876543210". *)
Theorem formatted_number_is_cut_short :
  column formatted_report "phone_number" = [Str "+91-98765 43210"]
  ∧ column (load_data formatted_report) "phone_number" = [Str "91"]
  ∧ column (frame_of (validate_phones (load_data formatted_report))) "phone_clean"
    = [Str "91"]
  ∧ column (frame_of (validate_phones (load_data formatted_report))) "is_valid"
    = [Bool false]
  ∧ remove_nondigits "+91-98765 43210" = "919876543210".
Proof. by vm_compute. Qed.

(** ** Contacts of one failure reason *)

Lemma filtered_contacts_frame failed_messages reason :
  has_column failed_messages "failure_reason" = true →
  filtered_contacts failed_messages (Some reason)
  = Ok (mkDF (columns failed_messages)
          (filter (λ r, at_col "failure_reason" r = Str reason)
                  (rows failed_messages))).
Proof.
  intros Hfr. unfold filtered_contacts. rewrite getitem_column by done.
  cbn [obind]. unfold boolean_index, eq_scalar, column. do 2 f_equal.
  rewrite <- list_fmap_compose.
  apply (keep_test (λ r, at_col "failure_reason" r = Str reason)).
Qed.

(** The download of line 162 holds the phone numbers of the frame, each
    one at its first occurrence. *)
Lemma contact_csv_frame filtered :
  has_column filtered "phone_number" = true →
  ∃ csv, contact_csv filtered = Ok csv
         ∧ columns csv = ["phone_number"]
         ∧ column csv "phone_number"
           = first_seen_from [] (at_col "phone_number" <$> rows filtered).
Proof.
  intros Hph. unfold contact_csv.
  rewrite select_columns_ok by (cbn; by rewrite Hph).
  cbn [obind]. eexists. split; [done|]. split; [done|].
  unfold drop_duplicates, boolean_index, column, row_values. cbn [rows columns].
  rewrite keep_fmap. unfold first_seen_from, duplicated.
  rewrite <- !list_fmap_compose.
  rewrite (list_fmap_ext (at_col "phone_number" ∘ project ["phone_number"])
             (at_col "phone_number") (rows filtered))
    by (intros _ r _; apply at_col_project).
  do 2 f_equal.
  rewrite <- (duplicated_from_inj (λ p : cell, [p]) [] _), <- list_fmap_compose.
  cbn [fmap list_fmap].
  f_equal; apply list_fmap_ext; intros _ r _; cbn; by rewrite at_col_project.
Qed.

(** C7: the contact list of a reason holds the phone numbers of exactly
    the failed rows whose failure reason is that text, no number twice,
    in the order in which the numbers first occur. *)
Theorem contacts_of_reason (failed_messages : DataFrame) (reason : string) :
  has_column failed_messages "failure_reason" = true →
  has_column failed_messages "phone_number" = true →
  let matching := filter (λ r, at_col "failure_reason" r = Str reason)
                         (rows failed_messages) in
  let phones := at_col "phone_number" <$> matching in
  ∃ filtered csv,
    filtered_contacts failed_messages (Some reason) = Ok filtered
    ∧ rows filtered = matching
    ∧ contact_csv filtered = Ok csv
    ∧ columns csv = ["phone_number"]
    ∧ NoDup (column csv "phone_number")
    ∧ (∀ p, p ∈ column csv "phone_number" ↔ p ∈ phones)
    ∧ (∀ i j p q, (i < j)%nat →
         column csv "phone_number" !! i = Some p →
         column csv "phone_number" !! j = Some q →
         ∃ k, phones !! k = Some p ∧ ∀ k', (k' ≤ k)%nat → phones !! k' ≠ Some q).
Proof.
  intros Hfr Hph matching phones.
  rewrite filtered_contacts_frame by done.
  eexists. destruct (contact_csv_frame
    (mkDF (columns failed_messages) matching) Hph) as (csv & Hcsv & Hcols & Hcol).
  exists csv. split; [done|]. split; [done|]. split; [exact Hcsv|].
  split; [exact Hcols|]. rewrite Hcol. cbn [rows]. fold phones.
  split; [apply NoDup_first_seen|]. split.
  - intros p. rewrite elem_of_first_seen, elem_of_nil. tauto.
  - intros i j p q. apply first_seen_order.
Qed.

Lemma contacts_of_reason_witness :
  ∃ filtered csv,
    filtered_contacts repeated_failures (Some "Invalid number") = Ok filtered
    ∧ contact_csv filtered = Ok csv
    ∧ NoDup (column csv "phone_number").
Proof.
  destruct (contacts_of_reason repeated_failures "Invalid number" eq_refl eq_refl)
    as (filtered & csv & Hf & _ & Hc & _ & Hnd & _).
  exists filtered, csv. split; [exact Hf|]. split; [exact Hc|exact Hnd].
Defined.

Example contacts_of_invalid_number :
  column (frame_of (obind (filtered_contacts repeated_failures (Some "Invalid number"))
                          contact_csv)) "phone_number"
  = [Str "222"; Str "111"].
Proof. by vm_compute. Qed.

(** ** The four message report *)

(** The scenario of the specification: four messages, one delivered and
    three failed, two valid numbers and two invalid ones. *)
Example scenario_metrics :
  metrics_of (main_flow scenario (Some "Invalid number"))
  = [ ("Total Messages", 4); ("Successful", 1); ("Failed", 3);
      ("Valid Numbers", 2); ("Invalid Numbers", 2) ]
  ∧ (main_flow scenario (Some "Invalid number")).2 = Ok tt.
Proof. by vm_compute. Qed.

(** ** Column labels *)

Section Labels.
Implicit Types (c : ascii) (s t : string) (f : ascii → ascii).

Local Ltac by_cases c :=
  destruct c as [[|] [|] [|] [|] [|] [|] [|] [|]]; reflexivity.

Lemma standard_char_twice c :
  space_to_underscore (lower_char (space_to_underscore (lower_char c)))
  = space_to_underscore (lower_char c).
Proof. by_cases c. Qed.

Lemma standard_char_label c :
  label_char (space_to_underscore (lower_char c)) = true.
Proof. by_cases c. Qed.

Lemma standard_char_upper c :
  space_to_underscore (lower_char (upper_char c))
  = space_to_underscore (lower_char c).
Proof. by_cases c. Qed.

Lemma standard_char_space c :
  is_space c = false → is_space (space_to_underscore (lower_char c)) = false.
Proof. destruct c as [[|] [|] [|] [|] [|] [|] [|] [|]]; done. Qed.

Lemma is_space_upper_char c : is_space (upper_char c) = is_space c.
Proof. by_cases c. Qed.

Lemma lower_map_chars s : lower s = map_chars lower_char s.
Proof. induction s as [|c s IH]; [done|]. cbn. by rewrite IH. Qed.

Lemma upper_map_chars s : upper s = map_chars upper_char s.
Proof. induction s as [|c s IH]; [done|]. cbn. by rewrite IH. Qed.

Lemma replace_spaces_map_chars s :
  replace_spaces s = map_chars space_to_underscore s.
Proof. induction s as [|c s IH]; [done|]. cbn. by rewrite IH. Qed.

Lemma map_chars_compose f g s :
  map_chars f (map_chars g s) = map_chars (f ∘ g) s.
Proof. induction s as [|c s IH]; [done|]. cbn. by rewrite IH. Qed.

Lemma map_chars_ext f g s :
  (∀ c, f c = g c) → map_chars f s = map_chars g s.
Proof. intros H. induction s as [|c s IH]; [done|]. cbn. by rewrite H, IH. Qed.

Lemma all_chars_map_chars p f s :
  (∀ c, p (f c) = true) → all_chars p (map_chars f s) = true.
Proof. intros H. induction s as [|c s IH]; [done|]. cbn. by rewrite H, IH. Qed.

Lemma standardize_name_map s :
  standardize_name s = map_chars (space_to_underscore ∘ lower_char) (strip s).
Proof.
  unfold standardize_name.
  by rewrite replace_spaces_map_chars, lower_map_chars, map_chars_compose.
Qed.

Lemma starts_ok_lstrip s : starts_ok (lstrip s) = true.
Proof.
  induction s as [|c s IH]; [done|]. cbn [lstrip].
  destruct (is_space c) eqn:Hc; [done|]. cbn. by rewrite Hc.
Qed.

Lemma lstrip_starts_ok s : starts_ok s = true → lstrip s = s.
Proof.
  destruct s as [|c s]; [done|]. cbn. by intros ->%negb_true_iff.
Qed.

Lemma starts_ok_rstrip s : starts_ok s = true → starts_ok (rstrip s) = true.
Proof.
  destruct s as [|c s]; [done|]. cbn [starts_ok rstrip].
  intros Hc. apply negb_true_iff in Hc as Hc'.
  destruct (rstrip s); cbn; by rewrite ?Hc'.
Qed.

Lemma rstrip_rstrip s : rstrip (rstrip s) = rstrip s.
Proof.
  induction s as [|c s IH]; [done|]. cbn [rstrip].
  destruct (rstrip s) as [|d t] eqn:Ht.
  - destruct (is_space c) eqn:Hc; [done|]. cbn. by rewrite Hc.
  - cbn [rstrip]. cbn [rstrip] in IH. by rewrite IH.
Qed.

Lemma map_chars_empty f s : map_chars f s = "" → s = "".
Proof. by destruct s. Qed.

(** What [rstrip] keeps stays kept when no character is turned into white
    space. *)
Lemma rstrip_map_chars_fixed f s :
  (∀ c, is_space c = false → is_space (f c) = false) →
  rstrip s = s → rstrip (map_chars f s) = map_chars f s.
Proof.
  intros Hf. induction s as [|c s IH]; [done|]. cbn [rstrip map_chars].
  destruct (rstrip s) as [|d t] eqn:Ht.
  - destruct (is_space c) eqn:Hc; [done|]. intros [= <-]. cbn.
    by rewrite Hf.
  - intros [= Hs]. rewrite IH by done.
    destruct (map_chars f s) eqn:Hm; [|done].
    apply map_chars_empty in Hm. by subst.
Qed.

Lemma starts_ok_map_chars f s :
  (∀ c, is_space c = false → is_space (f c) = false) →
  starts_ok s = true → starts_ok (map_chars f s) = true.
Proof.
  intros Hf. destruct s as [|c s]; [done|]. cbn.
  intros Hc%negb_true_iff. by rewrite Hf.
Qed.

Lemma lstrip_map_chars f s :
  (∀ c, is_space (f c) = is_space c) →
  lstrip (map_chars f s) = map_chars f (lstrip s).
Proof.
  intros Hf. induction s as [|c s IH]; [done|]. cbn [map_chars lstrip].
  rewrite Hf. by destruct (is_space c).
Qed.

Lemma rstrip_map_chars f s :
  (∀ c, is_space (f c) = is_space c) →
  rstrip (map_chars f s) = map_chars f (rstrip s).
Proof.
  intros Hf. induction s as [|c s IH]; [done|]. cbn [map_chars rstrip].
  rewrite IH, Hf. destruct (rstrip s); cbn [map_chars]; [|done].
  by destruct (is_space c).
Qed.

(** X1: standardising a label twice changes nothing more, the result
    holds neither a space nor a capital letter, and the casing of the
    header does not matter. *)
Theorem standardize_name_stable (s : string) :
  standardize_name (standardize_name s) = standardize_name s
  ∧ all_chars label_char (standardize_name s) = true
  ∧ standardize_name (upper s) = standardize_name s.
Proof.
  rewrite !standardize_name_map. split; [|split].
  - set (g := space_to_underscore ∘ lower_char).
    assert (Hstrip : strip (map_chars g (strip s)) = map_chars g (strip s)).
    { unfold strip at 1. rewrite lstrip_starts_ok.
      - apply rstrip_map_chars_fixed; [apply standard_char_space|].
        apply rstrip_rstrip.
      - apply starts_ok_map_chars; [apply standard_char_space|].
        apply starts_ok_rstrip, starts_ok_lstrip. }
    rewrite Hstrip, map_chars_compose. apply map_chars_ext.
    intros c. apply standard_char_twice.
  - apply all_chars_map_chars, standard_char_label.
  - unfold strip. rewrite upper_map_chars.
    rewrite lstrip_map_chars, rstrip_map_chars by apply is_space_upper_char.
    rewrite map_chars_compose. apply map_chars_ext.
    intros c. apply standard_char_upper.
Qed.

Example standardize_name_headers :
  standardize_name "Phone Number" = "phone_number"
  ∧ standardize_name "  Delivery Status " = "delivery_status"
  ∧ standardize_name "DELIVERY_DESCRIPTION" = "delivery_description".
Proof. by vm_compute. Qed.
End Labels.

(** ** Loading a report *)

Lemma extract_digits_extracted (x : string) : extracted (extract_digits x).
Proof.
  unfold extracted, extract_digits.
  destruct (search_digits x) as [d|] eqn:Hd; [|by left].
  right. exists d. apply search_digits_run in Hd as [? ?]. done.
Qed.

(** X2: [load_data] keeps the rows of the report, their order and their
    index labels, and every column but [phone_number] and the [datetime]
    it may add; what it leaves in [phone_number] is the missing value or
    a run of at least one digit.  A report that has no phone column, and
    not both a date and a time column, is returned as it is. *)
Theorem load_data_keeps_the_report (file : DataFrame) :
  label <$> rows (load_data file) = label <$> rows file
  ∧ (∀ c, c ≠ "phone_number" → c ≠ "datetime" →
          has_column (load_data file) c = has_column file c
          ∧ column (load_data file) c = column file c)
  ∧ (has_column file "phone_number" = true →
     has_column (load_data file) "phone_number" = true
     ∧ Forall extracted (column (load_data file) "phone_number"))
  ∧ (has_column file "phone_number" = false →
     has_column file "sent_date" && has_column file "sent_time" = false →
     load_data file = file).
Proof.
  split; [|split; [|split]].
  - destruct (has_column file "phone_number") eqn:Hph.
    + rewrite load_data_phone by done. cbn [rows].
      by rewrite <- list_fmap_compose.
    + by rewrite load_data_no_phone.
  - intros c Hc _. split; [apply has_column_load_data|].
    by apply column_load_data.
  - intros Hph. split; [by rewrite has_column_load_data|].
    rewrite load_data_phone by done. unfold column. cbn [rows].
    rewrite <- list_fmap_compose. apply Forall_fmap, Forall_forall.
    intros r _. cbn. unfold normalize_phone. rewrite at_col_set_col.
    apply extract_digits_extracted.
  - intros Hph _. by apply load_data_no_phone.
Qed.

Lemma load_data_keeps_the_report_witness :
  Forall extracted (column (load_data raw_numbers_report) "phone_number")
  ∧ column (load_data raw_numbers_report) "delivery_status"
    = column raw_numbers_report "delivery_status".
Proof.
  destruct (load_data_keeps_the_report raw_numbers_report)
    as (_ & Hother & Hphone & _).
  split; [by apply Hphone|]. by apply Hother.
Defined.

(** ** The failure analysis section *)

Lemma empty_false df : rows df ≠ [] → columns df ≠ [] → empty df = false.
Proof.
  intros Hr Hc. unfold empty. by rewrite !bool_decide_eq_false_2.
Qed.

Lemma has_column_failed_columns df rs c :
  has_column (mkDF (failed_columns df) rs) c
  = has_column df c || bool_decide (c = "failure_reason").
Proof.
  unfold failed_columns, has_column. cbn [columns].
  destruct (bool_decide ("failure_reason" ∈ columns df)) eqn:Hfr.
  - apply bool_decide_eq_true in Hfr.
    destruct (decide (c ∈ columns df)) as [Hc|Hc].
    + by rewrite !(bool_decide_eq_true_2 _ Hc).
    + rewrite !(bool_decide_eq_false_2 _ Hc), orb_false_l.
      symmetry. apply bool_decide_eq_false. by intros ->.
  - rewrite <- bool_decide_or. apply bool_decide_ext.
    rewrite elem_of_app, list_elem_of_singleton. done.
Qed.









(** ** The phone validation section *)

Lemma is_valid_validated r :
  at_col "is_valid" (validated r) = Bool (bool_decide (¬ short_number r)).
Proof.
  destruct (at_col_validated r) as [_ ->]. f_equal. unfold short_number.
  destruct (Nat.leb_spec 10 (String.length (clean_text r))).
  - symmetry. apply bool_decide_eq_true. lia.
  - symmetry. apply bool_decide_eq_false. intros H'. apply H'. lia.
Qed.

Lemma sum_bool_validated (rs : list Row) :
  sum_bool (at_col "is_valid" <$> (validated <$> rs))
  = Z.of_nat (length (filter (λ r, ¬ short_number r) rs)).
Proof.
  induction rs as [|r rs IH]; [done|].
  rewrite !fmap_cons, is_valid_validated, filter_cons.
  cbn [sum_bool]. rewrite IH.
  case_bool_decide; case_decide; try done. cbn [length]. lia.
Qed.

Lemma keep_invalid (rs : list Row) :
  keep (validated <$> rs)
    (invert (as_mask (at_col "is_valid" <$> (validated <$> rs))))
  = validated <$> filter short_number rs.
Proof.
  induction rs as [|r rs IH]; [done|].
  unfold invert, as_mask in *.
  rewrite !fmap_cons, is_valid_validated, filter_cons. cbn [keep].
  rewrite IH. destruct (decide (short_number r)) as [Hs|Hs].
  - rewrite bool_decide_eq_false_2; [done|]. intros [=].
    by apply bool_decide_eq_true in H0.
  - rewrite bool_decide_eq_true_2; [done|]. f_equal.
    by apply bool_decide_eq_true.
Qed.

Lemma has_column_validated df rs c :
  has_column (mkDF (validated_columns df) rs) c
  = has_column df c || bool_decide (c = "phone_clean")
    || bool_decide (c = "is_valid").
Proof.
  unfold validated_columns, setitem, has_column. cbn [columns].
  set (cs := if bool_decide ("phone_clean" ∈ columns df) then _ else _).
  assert (Hcs : ∀ x, x ∈ cs ↔ x ∈ columns df ∨ x = "phone_clean").
  { intros x. subst cs. case_bool_decide as Hin.
    - split; [by left|]. by intros [?| ->].
    - by rewrite elem_of_app, list_elem_of_singleton. }
  rewrite <- !bool_decide_or. apply bool_decide_ext.
  case_bool_decide as Hin.
  - rewrite Hcs. split; [by left|]. intros [?| ->]; [done|]. by apply Hcs.
  - by rewrite elem_of_app, list_elem_of_singleton, Hcs.
Qed.

Lemma phone_counts_validated df :
  phone_counts (mkDF (validated_columns df) (validated <$> rows df))
  = (Z.of_nat (length (filter (λ r, ¬ short_number r) (rows df))),
     Z.of_nat (length (filter short_number (rows df)))).
Proof.
  unfold phone_counts, column, len. cbn [rows].
  rewrite sum_bool_validated, length_fmap. f_equal.
  pose proof (filter_split_length short_number (rows df)). lia.
Qed.

Lemma invalid_numbers_validated df :
  has_column df "phone_number" = true →
  invalid_numbers (mkDF (validated_columns df) (validated <$> rows df))
  = Ok (mkDF ["phone_number"; "phone_clean"]
          (project ["phone_number"; "phone_clean"]
           <$> (validated <$> filter short_number (rows df)))).
Proof.
  intros Hph. unfold invalid_numbers, boolean_index, column. cbn [rows columns].
  rewrite keep_invalid. apply select_columns_ok. cbn [forallb].
  rewrite !has_column_validated, Hph.
  rewrite (bool_decide_eq_true_2 ("phone_clean" = "phone_clean")) by done.
  by rewrite orb_true_r.
Qed.

Lemma filter_nil_iff {A} (P : A → Prop) `{!∀ x, Decision (P x)} (l : list A) :
  filter P l = [] ↔ Forall (λ x, ¬ P x) l.
Proof.
  induction l as [|x l IH]; [by split|].
  rewrite filter_cons, Forall_cons. case_decide as Hx.
  - split; [done|]. by intros [? _].
  - rewrite IH. tauto.
Qed.

Lemma len_nonzero df : rows df ≠ [] → (len df =? 0) = false.
Proof.
  intros Hr. apply Z.eqb_neq. unfold len. destruct (rows df); [done|].
  cbn [length]. lia.
Qed.

Lemma phone_validation_outcome df :
  has_column df "phone_number" = true →
  rows df ≠ [] →
  (phone_validation df).2
  = if decide (filter short_number (rows df) = [])
    then Raise (NameError "invalid_numbers") else Ok tt.
Proof.
  intros Hph Hr. unfold phone_validation.
  rewrite Hph, validate_phones_frame, bind_lift_ok.
  rewrite phone_counts_validated.
  assert (Hlen : (len (mkDF (validated_columns df) (validated <$> rows df)) =? 0)
                 = false).
  { apply len_nonzero. cbn. by intros E%fmap_nil_inv. }
  unfold percent. rewrite Hlen.
  rewrite (bind_lift_ok (A:=Q)), bind_emit. cbn [snd].
  rewrite (bind_lift_ok (A:=Q)), bind_emit. cbn [snd].
  fold (invalid_numbers (mkDF (validated_columns df) (validated <$> rows df))).
  rewrite invalid_numbers_validated by done.
  destruct (decide (filter short_number (rows df) = [])) as [E|E].
  - by rewrite E.
  - assert ((0 <? Z.of_nat (length (filter short_number (rows df)))) = true) as ->.
    { apply Z.ltb_lt. destruct (filter short_number (rows df)); [done|].
      cbn [length]. lia. }
    rewrite bind_lift_ok, bind_emit. done.
Qed.

(** X4: whenever every phone number of the report has at least ten
    digits, the phone validation shows its two metrics and then stops
    with [NameError]: line 216 reads [invalid_numbers], which line 189
    binds only when some number is invalid.  With an invalid number it
    runs to its end. *)
Theorem phone_validation_needs_an_invalid_number (df : DataFrame) :
  has_column df "phone_number" = true →
  rows df ≠ [] →
  (Forall (λ r, (10 ≤ String.length (clean_text r))%nat) (rows df) →
   (phone_validation df).2 = Raise (NameError "invalid_numbers")
   ∧ metrics_of (phone_validation df)
     = [("Valid Numbers", len df); ("Invalid Numbers", 0)])
  ∧ (Exists (λ r, (String.length (clean_text r) < 10)%nat) (rows df) →
     (phone_validation df).2 = Ok tt).
Proof.
  intros Hph Hr. split.
  - intros Hall.
    assert (E : filter short_number (rows df) = []).
    { apply filter_nil_iff. eapply Forall_impl; [exact Hall|].
      unfold short_number. intros r ?. lia. }
    split.
    + rewrite phone_validation_outcome by done. by rewrite decide_True.
    + unfold phone_validation.
      rewrite Hph, validate_phones_frame, bind_lift_ok.
      rewrite phone_counts_validated, E.
      assert (Hlen : (len (mkDF (validated_columns df) (validated <$> rows df))
                      =? 0) = false).
      { apply len_nonzero. cbn. by intros E'%fmap_nil_inv. }
      unfold percent. rewrite Hlen.
      rewrite (bind_lift_ok (A:=Q)), bind_emit.
      rewrite (bind_lift_ok (A:=Q)), bind_emit.
      unfold metrics_of. cbn [fst snd omap list_omap length Z.of_nat Z.ltb Z.compare].
      cbn. do 2 f_equal. 
      pose proof (filter_split_length short_number (rows df)) as Hs.
      rewrite E in Hs. unfold len. cbn [length] in Hs. lia.
  - intros Hex. rewrite phone_validation_outcome by done.
    rewrite decide_False; [done|]. intros E.
    apply filter_nil_iff in E. apply Exists_exists in Hex as (r & Hin & Hs).
    rewrite Forall_forall in E. by apply (E r).
Qed.

Lemma phone_validation_needs_an_invalid_number_witness :
  (phone_validation (load_data valid_numbers_report)).2
  = Raise (NameError "invalid_numbers")
  ∧ (phone_validation (load_data scenario)).2 = Ok tt.
Proof.
  split.
  - apply (phone_validation_needs_an_invalid_number
             (load_data valid_numbers_report)); [reflexivity|done|].
    repeat constructor.
  - apply (phone_validation_needs_an_invalid_number (load_data scenario));
      [reflexivity|done|].
    apply Exists_cons_tl, Exists_cons_hd. vm_compute. lia.
Defined.

Lemma at_col_invalid_row r :
  at_col "phone_number" (project ["phone_number"; "phone_clean"] (validated r))
  = at_col "phone_number" r
  ∧ at_col "phone_clean" (project ["phone_number"; "phone_clean"] (validated r))
    = Str (clean_text r).
Proof.
  destruct (at_col_validated r) as [Hclean _].
  unfold at_col at 1 3, project. cbn [cells fmap list_fmap list_to_map foldr].
  cbn [uncurry]. split.
  - rewrite lookup_insert_eq. cbn. unfold validated.
    by rewrite !at_col_set_col_ne.
  - rewrite lookup_insert_ne, lookup_insert_eq by done. cbn. exact Hclean.
Qed.

(** X5: the table of invalid numbers holds, in order, exactly the rows
    whose [phone_clean] has fewer than ten digits, with their number and
    its digits, and it has as many rows as the Invalid Numbers metric
    counts. *)
Theorem invalid_numbers_match_the_count (df : DataFrame) :
  has_column df "phone_number" = true →
  ∃ checked table,
    validate_phones df = Ok checked
    ∧ invalid_numbers checked = Ok table
    ∧ columns table = ["phone_number"; "phone_clean"]
    ∧ len table = (phone_counts checked).2
    ∧ label <$> rows table = label <$> filter short_number (rows df)
    ∧ column table "phone_number"
      = at_col "phone_number" <$> filter short_number (rows df)
    ∧ column table "phone_clean"
      = (λ r, Str (clean_text r)) <$> filter short_number (rows df)
    ∧ Forall (λ v, ∃ text, v = Str text ∧ all_digits text = true
                           ∧ (String.length text < 10)%nat)
        (column table "phone_clean").
Proof.
  intros Hph. rewrite validate_phones_frame. eexists _, _.
  split; [done|]. rewrite invalid_numbers_validated by done.
  split; [done|]. split; [done|]. rewrite phone_counts_validated.
  unfold len, column. cbn [rows snd].
  assert (Hclean : at_col "phone_clean"
                   <$> (project ["phone_number"; "phone_clean"]
                        <$> (validated <$> filter short_number (rows df)))
                   = (λ r, Str (clean_text r)) <$> filter short_number (rows df)).
  { rewrite <- !list_fmap_compose. apply list_fmap_ext.
    intros _ r _. apply at_col_invalid_row. }
  split; [by rewrite !length_fmap|]. split; [by rewrite <- !list_fmap_compose|].
  split.
  { rewrite <- !list_fmap_compose. apply list_fmap_ext.
    intros _ r _. apply at_col_invalid_row. }
  split; [exact Hclean|]. rewrite Hclean.
  apply Forall_fmap, Forall_forall. intros r [Hs _]%list_elem_of_filter.
  exists (clean_text r). split; [done|]. split; [|exact Hs].
  apply remove_nondigits_all_digits.
Qed.

Lemma invalid_numbers_match_the_count_witness :
  ∃ checked table,
    validate_phones (load_data scenario) = Ok checked
    ∧ invalid_numbers checked = Ok table
    ∧ len table = (phone_counts checked).2.
Proof.
  destruct (invalid_numbers_match_the_count (load_data scenario) eq_refl)
    as (checked & table & Hc & Ht & _ & Hlen & _).
  exists checked, table. split; [exact Hc|]. split; [exact Ht|exact Hlen].
Defined.

(** ** How a run ends *)


Lemma campaign_overview_refused df :
  has_column df "delivery_status" = true →
  object_column (column df "delivery_status") = false →
  campaign_overview df = ([], Raise AttributeError).
Proof.
  intros Hst Hobj. unfold campaign_overview.
  by rewrite overview_counts_refused.
Qed.





(** ** A status column without a text *)

Lemma object_column_false (s : Series) :
  s ≠ [] → Forall (λ v, is_text v = false) s → object_column s = false.
Proof.
  intros Hs Hall. unfold object_column.
  rewrite bool_decide_eq_false_2 by done. cbn [orb].
  induction Hall as [|v s Hv _ IH]; [done|]. cbn [existsb]. rewrite Hv.
  destruct s; [done|]. by apply IH.
Qed.

(** X3: a report whose status column has rows and a text in none of
    them, as when every status field is empty, cannot be analysed: the
    [.str] accessor refuses the column, the overview raises
    [AttributeError] at line 74 before any metric is shown, which ends
    the run, and [analyze_failures] raises it at line 51. *)
Theorem status_without_text_is_refused (file : DataFrame)
    (selected_reason : option string) :
  has_column file "delivery_status" = true →
  rows file ≠ [] →
  Forall (λ r, is_text (at_col "delivery_status" r) = false) (rows file) →
  overview_counts (load_data file) = Raise AttributeError
  ∧ analyze_failures (load_data file) = ([], Raise AttributeError)
  ∧ main_flow file selected_reason = ([], Raise AttributeError).
Proof.
  intros Hst Hr Hall.
  assert (Hobj : object_column (column (load_data file) "delivery_status")
                 = false).
  { rewrite object_status_load_data. apply object_column_false.
    - unfold column. by intros E%fmap_nil_inv.
    - unfold column. by apply Forall_fmap. }
  assert (Hst' : has_column (load_data file) "delivery_status" = true)
    by (by rewrite has_column_load_data).
  split; [by apply overview_counts_refused|].
  split; [by apply analyze_failures_refused|].
  unfold main_flow. by rewrite campaign_overview_refused.
Qed.

Lemma status_without_text_is_refused_witness :
  main_flow blank_status_report None = ([], Raise AttributeError).
Proof.
  apply (status_without_text_is_refused blank_status_report None);
    [reflexivity|done|repeat constructor].
Defined.

(** ** Failure counts *)

Section Counting.
Context {A : Type} `{EqDecision A}.
Implicit Types (l vs : list A) (f g : A → nat).

Lemma sum_list_with_add f g vs :
  sum_list_with (λ v, f v + g v)%nat vs
  = (sum_list_with f vs + sum_list_with g vs)%nat.
Proof. induction vs as [|v vs IH]; [done|]. cbn. rewrite IH. lia. Qed.

Lemma sum_list_with_ext_in f g vs :
  (∀ v, v ∈ vs → f v = g v) → sum_list_with f vs = sum_list_with g vs.
Proof.
  induction vs as [|v vs IH]; [done|]. intros H. cbn.
  rewrite (H v), IH; [done| |apply list_elem_of_here].
  intros w Hw. apply H. by apply list_elem_of_further.
Qed.

Lemma sum_list_with_zero f vs :
  (∀ v, v ∈ vs → f v = 0%nat) → sum_list_with f vs = 0%nat.
Proof.
  intros H. rewrite (sum_list_with_ext_in f (λ _, 0%nat)) by done.
  induction vs as [|v vs IH]; [done|]. cbn. apply IH.
  intros w Hw. apply H. by apply list_elem_of_further.
Qed.

(** Among distinct values exactly one is [x]. *)
Lemma sum_indicator (x : A) vs :
  NoDup vs → x ∈ vs →
  sum_list_with (λ v, if decide (x = v) then 1 else 0)%nat vs = 1%nat.
Proof.
  induction 1 as [|v vs Hv Hnd IH]; [by intros ?%elem_of_nil|].
  intros Hx. cbn. case_decide as E.
  - subst v. rewrite sum_list_with_zero; [done|].
    intros w Hw. rewrite decide_False; [done|]. by intros ->.
  - apply elem_of_cons in Hx as [->|Hx]; [done|]. by rewrite IH.
Qed.

(** The occurrences of the distinct values of a list add up to its
    length. *)
Lemma sum_occurrences vs l :
  NoDup vs → (∀ x, x ∈ l → x ∈ vs) →
  sum_list_with (λ v, length (filter (v =.) l)) vs = length l.
Proof.
  intros Hnd. induction l as [|x l IH]; intros Hin.
  - apply sum_list_with_zero. done.
  - rewrite (sum_list_with_ext_in _
      (λ v, (if decide (x = v) then 1 else 0) + length (filter (v =.) l))%nat).
    + rewrite sum_list_with_add, sum_indicator, IH; [done| | |].
      * intros y Hy. apply Hin. by apply list_elem_of_further.
      * done.
      * apply Hin, list_elem_of_here.
    + intros v _. rewrite filter_cons.
      destruct (decide (v = x)) as [->|Hne].
      * by rewrite decide_True.
      * rewrite decide_False; [done|]. by intros ->.
Qed.
End Counting.

#[global] Instance more_frequent_total : Total more_frequent.
Proof. intros a b. unfold more_frequent. lia. Qed.

#[global] Instance more_frequent_trans : Transitive more_frequent.
Proof. intros a b c. unfold more_frequent. lia. Qed.

Lemma elem_of_dropna v (s : Series) : v ∈ dropna s ↔ v ≠ NaN ∧ v ∈ s.
Proof. unfold dropna. by rewrite list_elem_of_filter. Qed.

Lemma count_of_dropna v (s : Series) :
  v ≠ NaN → count_of v (dropna s) = count_of v s.
Proof.
  intros Hv. unfold count_of, dropna.
  induction s as [|x s IH]; [done|].
  rewrite !filter_cons. destruct (decide (x ≠ NaN)) as [Hx|Hx].
  - rewrite filter_cons. case_decide; cbn [length]; by rewrite IH.
  - rewrite decide_False; [done|]. intros ->. done.
Qed.

Lemma count_of_pos v (s : Series) : v ∈ s → (0 < count_of v s)%nat.
Proof.
  intros Hin. unfold count_of.
  assert (Hf : v ∈ filter (v =.) s) by (by apply list_elem_of_filter).
  destruct (filter (v =.) s); [by apply elem_of_nil in Hf|]. cbn. lia.
Qed.

Lemma value_counts_buckets (s : Series) :
  value_counts s
  ≡ₚ (λ v, (v, count_of v s)) <$> first_seen_from [] (dropna s).
Proof. apply merge_sort_Permutation. Qed.

Lemma value_counts_keys (s : Series) :
  (value_counts s).*1 ≡ₚ first_seen_from [] (dropna s).
Proof.
  rewrite value_counts_buckets, <- list_fmap_compose.
  by rewrite list_fmap_id.
Qed.

Lemma sum_list_with_fmap {A B} (f : B → nat) (g : A → B) (l : list A) :
  sum_list_with f (g <$> l) = sum_list_with (f ∘ g) l.
Proof. induction l as [|x l IH]; [done|]. cbn. by rewrite IH. Qed.

(** What [value_counts] returns, whatever the order among equal
    counts. *)
Lemma value_counts_facts (s : Series) :
  NoDup (value_counts s).*1
  ∧ (∀ v, v ∈ (value_counts s).*1 ↔ v ≠ NaN ∧ v ∈ s)
  ∧ (∀ v n, (v, n) ∈ value_counts s → n = count_of v s ∧ (0 < n)%nat)
  ∧ StronglySorted more_frequent (value_counts s)
  ∧ sum_list_with snd (value_counts s) = length (dropna s).
Proof.
  split; [|split; [|split; [|split]]].
  - rewrite value_counts_keys. apply NoDup_first_seen.
  - intros v. rewrite value_counts_keys, elem_of_first_seen, elem_of_dropna.
    rewrite elem_of_nil. tauto.
  - intros v n. rewrite value_counts_buckets.
    intros (w & [= -> ->] & Hw)%list_elem_of_fmap. split; [done|].
    apply elem_of_first_seen in Hw as [Hw _].
    apply elem_of_dropna in Hw as [_ Hw]. by apply count_of_pos.
  - apply StronglySorted_merge_sort; apply _.
  - rewrite value_counts_buckets, sum_list_with_fmap.
    rewrite (sum_list_with_ext_in _ (λ v, count_of v (dropna s))).
    + apply sum_occurrences; [apply NoDup_first_seen|].
      intros x Hx. apply elem_of_first_seen. split; [done|apply not_elem_of_nil].
    + intros v [Hv _]%elem_of_first_seen. cbn.
      apply elem_of_dropna in Hv as [Hv _]. by rewrite count_of_dropna.
Qed.

Lemma count_of_column df c v :
  count_of v (column df c) = length (filter (λ r, at_col c r = v) (rows df)).
Proof.
  unfold count_of, column. induction (rows df) as [|r rs IH]; [done|].
  rewrite fmap_cons, !filter_cons.
  destruct (decide (at_col c r = v)) as [E|E].
  - rewrite decide_True by done. cbn [length]. by rewrite IH.
  - rewrite decide_False; [done|]. by intros ->.
Qed.

(** X7: the table of failure counts lists every failure reason that is
    not missing exactly once, with the number of failed messages that
    have it, the larger counts first; a missing reason is never listed,
    and the counts add up to the number of failed messages that have a
    reason. *)
Theorem failure_counts_table (failed_messages : DataFrame) :
  has_column failed_messages "failure_reason" = true →
  ∃ counts,
    failure_counts failed_messages = Ok counts
    ∧ NoDup counts.*1
    ∧ (∀ v, v ∈ counts.*1
            ↔ v ≠ NaN ∧ ∃ r, r ∈ rows failed_messages
                             ∧ at_col "failure_reason" r = v)
    ∧ (∀ v n, (v, n) ∈ counts →
         n = length (filter (λ r, at_col "failure_reason" r = v)
                            (rows failed_messages))
         ∧ (0 < n)%nat)
    ∧ StronglySorted (λ a b, (b.2 ≤ a.2)%nat) counts
    ∧ sum_list_with snd counts
      = length (filter (λ r, at_col "failure_reason" r ≠ NaN)
                       (rows failed_messages)).
Proof.
  intros Hfr. unfold failure_counts. rewrite getitem_column by done.
  cbn [obind]. eexists. split; [done|].
  destruct (value_counts_facts (column failed_messages "failure_reason"))
    as (Hnd & Hkeys & Hcount & Hsorted & Hsum).
  split; [exact Hnd|]. split; [|split; [|split; [exact Hsorted|]]].
  - intros v. rewrite Hkeys. unfold column. rewrite list_elem_of_fmap.
    split; intros [Hv (r & Hr & Hin)]; (split; [done|]); by exists r.
  - intros v n Hin. apply Hcount in Hin as [-> Hpos].
    rewrite <- count_of_column. done.
  - rewrite Hsum. unfold dropna, column.
    induction (rows failed_messages) as [|r rs IH]; [done|].
    rewrite fmap_cons, !filter_cons.
    destruct (decide (at_col "failure_reason" r ≠ NaN)); cbn [length];
      by rewrite IH.
Qed.

Lemma failure_counts_table_witness :
  ∃ counts,
    failure_counts repeated_failures = Ok counts
    ∧ NoDup counts.*1
    ∧ sum_list_with snd counts = 5%nat.
Proof.
  destruct (failure_counts_table repeated_failures eq_refl)
    as (counts & Hc & Hnd & _ & _ & _ & Hsum).
  exists counts. split; [exact Hc|]. split; [exact Hnd|exact Hsum].
Defined.


Lemma length_dropna (s : Series) :
  (length (dropna s) + count_of NaN s = length s)%nat.
Proof.
  unfold dropna, count_of. induction s as [|v s IH]; [done|].
  rewrite !filter_cons. destruct (decide (v ≠ NaN)) as [Hv|Hv].
  - rewrite decide_False by (by intros <-). cbn [length]. lia.
  - rewrite decide_True; [cbn [length]; lia|].
    by destruct (decide (v = NaN)) as [->|?].
Qed.

(** X8: every reason the table of failure counts offers selects at least
    one failed message, and as many as the table counts for it; a text
    the table does not offer selects none.  The counts of the table and
    the failed messages without a reason add up to the failed
    messages. *)
Theorem offered_reasons_select_their_count (failed_messages : DataFrame) :
  has_column failed_messages "failure_reason" = true →
  ∃ counts,
    failure_counts failed_messages = Ok counts
    ∧ (∀ reason n, (Str reason, n) ∈ counts →
         ∃ filtered,
           filtered_contacts failed_messages (Some reason) = Ok filtered
           ∧ len filtered = Z.of_nat n
           ∧ empty filtered = false)
    ∧ (∀ reason, Str reason ∉ counts.*1 →
         ∃ filtered,
           filtered_contacts failed_messages (Some reason) = Ok filtered
           ∧ rows filtered = [])
    ∧ (sum_list_with snd counts
       + count_of NaN (column failed_messages "failure_reason")
       = length (rows failed_messages))%nat.
Proof.
  intros Hfr. unfold failure_counts. rewrite getitem_column by done.
  cbn [obind]. eexists. split; [done|].
  destruct (value_counts_facts (column failed_messages "failure_reason"))
    as (_ & Hkeys & Hcount & _ & Hsum).
  split; [|split].
  - intros reason n Hin. rewrite filtered_contacts_frame by done.
    eexists. split; [done|].
    apply Hcount in Hin as [-> Hpos]. rewrite count_of_column in *.
    split; [done|]. apply empty_false; cbn [rows columns].
    + intros E. rewrite E in Hpos. cbn in Hpos. lia.
    + by eapply columns_nonempty.
  - intros reason Hout. rewrite filtered_contacts_frame by done.
    eexists. split; [done|]. cbn [rows]. apply filter_nil_iff, Forall_forall.
    intros r Hr E. apply Hout, Hkeys. split; [done|].
    rewrite <- E. unfold column. apply list_elem_of_fmap. by exists r.
  - rewrite Hsum, length_dropna. apply length_column.
Qed.

Lemma offered_reasons_select_their_count_witness :
  ∃ counts,
    failure_counts repeated_failures = Ok counts
    ∧ (sum_list_with snd counts
       + count_of NaN (column repeated_failures "failure_reason") = 5)%nat.
Proof.
  destruct (offered_reasons_select_their_count repeated_failures eq_refl)
    as (counts & Hc & _ & _ & Hsum).
  exists counts. split; [exact Hc|]. exact Hsum.
Defined.

Example failure_counts_of_scenario :
  obind (failure_counts (run_frame (analyze_failures (load_data scenario))))
        (λ counts, Ok counts)
  = Ok [(Str "Invalid number", 2%nat)].
Proof. by vm_compute. Qed.

(** ** The failed messages *)

(** X9: [analyze_failures] on a report with a status column that holds a
    text or has no rows does not raise.  When no message failed it returns the empty selection with
    the columns of the report, without a failure reason column, and shows
    nothing.  When some failed it keeps every column of the report, adds
    the failure reason, and warns exactly when the report has no phone
    column.  Every row it returns is a row of the report with the same
    index label and the same values outside the phone number and the
    failure reason. *)
Theorem analyze_failures_shape (df : DataFrame) :
  has_column df "delivery_status" = true →
  object_column (column df "delivery_status") = true →
  ∃ failed,
    (analyze_failures df).2 = Ok failed
    ∧ (rows failed = [] →
       columns failed = columns df ∧ (analyze_failures df).1 = [])
    ∧ (rows failed ≠ [] →
       has_column failed "failure_reason" = true
       ∧ (∀ c, has_column df c = true → has_column failed c = true)
       ∧ (analyze_failures df).1
         = if has_column df "phone_number" then []
           else [warning "Phone Number column not found in the data"])
    ∧ ∀ r, r ∈ rows failed →
        ∃ r0, r0 ∈ rows df ∧ label r = label r0
              ∧ ∀ c, c ≠ "phone_number" → c ≠ "failure_reason" →
                     at_col c r = at_col c r0.
Proof.
  intros Hst Hobj. rewrite analyze_failures_frame by done.
  destruct (decide (failed_rows df = [])) as [E|E].
  - eexists. split; [done|]. cbn [rows columns fst].
    split; [done|]. split; [done|]. by intros r ?%elem_of_nil.
  - eexists. split; [done|]. cbn [rows fst]. split; [|split].
    + by intros E'%fmap_nil_inv.
    + intros _. rewrite has_column_failed_columns, orb_true_r.
      split; [done|]. split; [|done].
      intros c Hc. by rewrite has_column_failed_columns, Hc.
    + intros r (r0 & -> & Hin)%list_elem_of_fmap.
      apply list_elem_of_filter in Hin as [_ Hin].
      exists r0. split; [done|]. split; [apply label_annotate|].
      intros c ? ?. by apply at_col_annotate.
Qed.

Lemma analyze_failures_shape_witness :
  ∃ failed,
    (analyze_failures (load_data scenario)).2 = Ok failed
    ∧ has_column failed "failure_reason" = true.
Proof.
  destruct (analyze_failures_shape (load_data scenario) eq_refl eq_refl)
    as (failed & Hf & _ & Hsome & _).
  exists failed. split; [exact Hf|].
  assert (Hne : rows failed ≠ []).
  { vm_compute in Hf. injection Hf as <-. discriminate. }
  exact (proj1 (Hsome Hne)).
Defined.

(** ** Cleaning a loaded number *)

(** X10: on a loaded report line 175 has nothing left to remove: the
    [phone_clean] of a row is its [phone_number] wherever that is
    present, and the empty text where it is missing. *)
Theorem phone_clean_repeats_loaded_number (file : DataFrame) :
  has_column file "phone_number" = true →
  ∃ checked,
    validate_phones (load_data file) = Ok checked
    ∧ ∀ r, r ∈ rows checked →
        (∀ d, at_col "phone_number" r = Str d → at_col "phone_clean" r = Str d)
        ∧ (at_col "phone_number" r = NaN → at_col "phone_clean" r = Str "")
        ∧ (at_col "phone_number" r = NaN ∨ ∃ d, at_col "phone_number" r = Str d).
Proof.
  intros Hph. rewrite validate_phones_frame, load_data_phone by done.
  eexists. split; [done|]. cbn [rows].
  intros r (x & -> & (r0 & -> & _)%list_elem_of_fmap)%list_elem_of_fmap.
  destruct (at_col_validated (normalize_phone r0)) as [-> _].
  assert (Hp : at_col "phone_number" (validated (normalize_phone r0))
               = extract_digits (cell_str (at_col "phone_number" r0))).
  { unfold validated. rewrite !at_col_set_col_ne by done.
    unfold normalize_phone. apply at_col_set_col. }
  rewrite Hp. unfold clean_text, normalize_phone. rewrite at_col_set_col.
  destruct (extract_digits_extracted (cell_str (at_col "phone_number" r0)))
    as [->|(d & -> & Hall & _)].
  - split; [done|]. split; [done|]. by left.
  - split; [|split; [done|right; by exists d]].
    intros d' [= <-]. cbn [cell_str]. by rewrite remove_nondigits_fixed.
Qed.

Lemma phone_clean_repeats_loaded_number_witness :
  ∃ checked,
    validate_phones (load_data raw_numbers_report) = Ok checked
    ∧ column checked "phone_clean"
      = [Str "919876543210"; Str "919876543210"; Str ""].
Proof.
  destruct (phone_clean_repeats_loaded_number raw_numbers_report eq_refl)
    as (checked & Hc & _).
  exists checked. split; [exact Hc|].
  vm_compute in Hc. injection Hc as <-. by vm_compute.
Defined.

(** ** The metrics *)

(** X11: on a report with at least one row whose status column holds a
    text the overview shows its three metrics and nothing else and runs
    to its end.  The successful messages are the rows with a success
    status, the failed ones are the other rows, the two add up to the
    total, and each is shown with its share of the total times 100. *)
Theorem campaign_overview_metrics (df : DataFrame) :
  has_column df "delivery_status" = true →
  object_column (column df "delivery_status") = true →
  rows df ≠ [] →
  ∃ success failed p q,
    campaign_overview df
    = ([ metric "Total Messages" (len df) None;
         metric "Successful" success (Some p);
         metric "Failed" failed (Some q) ], Ok tt)
    ∧ success = Z.of_nat (length (success_rows df))
    ∧ failed = Z.of_nat (length (failed_rows df))
    ∧ success + failed = len df
    ∧ p = (inject_Z success / inject_Z (len df) * 100)%Q
    ∧ q = (inject_Z failed / inject_Z (len df) * 100)%Q.
Proof.
  intros Hst Hobj Hr. unfold campaign_overview.
  rewrite overview_counts_frame, bind_lift_ok by done.
  set (s := Z.of_nat (length (success_rows df))).
  unfold percent. rewrite (len_nonzero df Hr).
  eexists s, (len df - s), _, _. split; [done|]. split; [done|].
  split; [|split; [lia|done]].
  subst s. pose proof (success_failed_rows df). unfold len. lia.
Qed.

Lemma campaign_overview_metrics_witness :
  ∃ p q,
    campaign_overview (load_data scenario)
    = ([ metric "Total Messages" 4 None;
         metric "Successful" 1 (Some p);
         metric "Failed" 3 (Some q) ], Ok tt)
    ∧ p = (inject_Z 1 / inject_Z 4 * 100)%Q
    ∧ q = (inject_Z 3 / inject_Z 4 * 100)%Q.
Proof.
  destruct (campaign_overview_metrics (load_data scenario) eq_refl eq_refl)
    as (success & failed & p & q & Hrun & Hs & Hf & _ & Hp & Hq); [done|].
  assert (Es : success = 1) by (rewrite Hs; by vm_compute).
  assert (Ef : failed = 3) by (rewrite Hf; by vm_compute).
  subst success failed.
  exists p, q. split; [exact Hrun|]. split; [exact Hp|exact Hq].
Defined.

(** ** A report without descriptions *)

Lemma first_seen_constant {A} `{EqDecision A} (v : A) seen (l : list A) :
  Forall (v =.) l →
  first_seen_from seen l
  = if decide (v ∈ seen) then [] else if decide (l = []) then [] else [v].
Proof.
  intros Hall. revert seen. induction Hall as [|x l <- _ IH]; intros seen.
  - by case_decide.
  - rewrite first_seen_cons, IH.
    rewrite (decide_True (P := v ∈ v :: seen)) by apply list_elem_of_here.
    by case_decide.
Qed.

Lemma filter_all {A} (P : A → Prop) `{!∀ x, Decision (P x)} (l : list A) :
  Forall P l → filter P l = l.
Proof.
  induction 1 as [|x l Hx _ IH]; [done|].
  by rewrite filter_cons, decide_True, IH.
Qed.

Lemma value_counts_constant (v : cell) (s : Series) :
  v ≠ NaN → s ≠ [] → Forall (v =.) s → value_counts s = [(v, length s)].
Proof.
  intros Hv Hs Hall. unfold value_counts.
  assert (Hdrop : dropna s = s).
  { apply filter_all. eapply Forall_impl; [exact Hall|]. by intros x <-. }
  assert (Hcount : count_of v s = length s).
  { unfold count_of. by rewrite filter_all. }
  rewrite Hdrop, (first_seen_constant v) by done.
  rewrite decide_False by apply not_elem_of_nil.
  rewrite decide_False by done. cbn [fmap list_fmap]. by rewrite Hcount.
Qed.

(** X12: when the report has no description column, its status column
    holds a text and some message failed, every failed message gets the reason 'No reason provided':
    the table of failure counts is that one reason with the number of
    failed messages, and selecting it selects them all. *)
Theorem placeholder_is_the_only_reason (df : DataFrame) :
  has_column df "delivery_status" = true →
  object_column (column df "delivery_status") = true →
  has_column df "delivery_description" = false →
  Exists (λ r, ¬ success_status (at_col "delivery_status" r)) (rows df) →
  ∃ failed filtered,
    (analyze_failures df).2 = Ok failed
    ∧ failure_counts failed
      = Ok [(Str "No reason provided", length (rows failed))]
    ∧ filtered_contacts failed (Some "No reason provided") = Ok filtered
    ∧ rows filtered = rows failed.
Proof.
  intros Hst Hobj Hd Hex.
  assert (Hf : failed_rows df ≠ []).
  { intros E. apply filter_nil_iff in E. rewrite Forall_forall in E.
    apply Exists_exists in Hex as (r & Hin & Hr). by apply (E r). }
  rewrite analyze_failures_frame, decide_False by done.
  eexists _, _. split; [done|].
  set (failed := mkDF _ _).
  assert (Hfr : has_column failed "failure_reason" = true).
  { subst failed. rewrite has_column_failed_columns. apply orb_true_r. }
  assert (Hall : Forall (Str "No reason provided" =.)
                   (column failed "failure_reason")).
  { unfold column. subst failed. cbn [rows]. rewrite <- list_fmap_compose.
    apply Forall_fmap, Forall_forall. intros r _. cbn.
    by rewrite failure_reason_annotate, Hd. }
  split; [|split].
  - unfold failure_counts. rewrite getitem_column by done. cbn [obind].
    rewrite (value_counts_constant (Str "No reason provided")); [|done| |done].
    + by rewrite length_column.
    + unfold column. subst failed. cbn [rows].
      by intros E%fmap_nil_inv%fmap_nil_inv.
  - by rewrite filtered_contacts_frame.
  - cbn [rows]. apply filter_all, Forall_forall. intros r Hr.
    rewrite Forall_forall in Hall. symmetry. apply Hall.
    unfold column. apply list_elem_of_fmap. by exists r.
Qed.

Lemma placeholder_is_the_only_reason_witness :
  ∃ failed,
    (analyze_failures (load_data report_without_description)).2 = Ok failed
    ∧ failure_counts failed = Ok [(Str "No reason provided", 2%nat)].
Proof.
  destruct (placeholder_is_the_only_reason
              (load_data report_without_description) eq_refl eq_refl eq_refl)
    as (failed & filtered & Hf & Hc & _).
  { apply Exists_cons_hd. apply (bool_decide_unpack _). by vm_compute. }
  exists failed. split; [exact Hf|]. rewrite Hc.
  vm_compute in Hf. injection Hf as <-. done.
Defined.
